(** * RTCC driver (rtc.c): BCD codec, consistent register sampler,
      date/time formatter and peak-window classifier.

    The C translation unit is embedded shallowly.  Fixed-width unsigned
    integers are integers in [Z] with their wrap-around written out;
    [char current_datetime[20]] is a list of character codes updated by index;
    the volatile RTCC registers are an environment that answers every read;
    the busy-retry [do ... while] loops take a fuel argument and answer
    [None] when the fuel runs out before the loop exits.

    [__initRTC] only programs the peripheral (unlock, write, enable, lock);
    of [RTC_Initialize] the development covers what it computes, the two
    register images built by [pack_time] and [pack_date]. *)

From Stdlib Require Import ZArith Lia String Ascii List Bool.
From stdpp Require Import base list.
Import ListNotations.

Local Open Scope Z_scope.

(** ** Machine integers *)

Module CInt.

(** Conversion to [uint8_t], [uint16_t] and [uint32_t]. *)
Definition u8 (x : Z) : Z := x mod 256.
Definition u16 (x : Z) : Z := x mod 65536.
Definition u32 (x : Z) : Z := x mod 4294967296.

(** Conversion to [int] (32 bits, two's complement). *)
Definition i32 (x : Z) : Z := (x + 2147483648) mod 4294967296 - 2147483648.

Definition is_u8 (x : Z) : Prop := 0 <= x < 256.
Definition is_u16 (x : Z) : Prop := 0 <= x < 65536.

End CInt.
Import CInt.

(** ** BCD codec (rtc.c, lines 32-60 and 146-151, 211-212) *)

(** [static uint8_t int_to_bcd(uint8_t value)]: the operands are promoted to
    [int], the result is converted back to [uint8_t]. *)
Definition int_to_bcd (value : Z) : Z :=
  u8 (Z.lor (Z.shiftl (value / 10) 4) (value mod 10)).

(** The decoding expression of [checkPeakHours],
    [((bcd >> 4) * 10) + (bcd & 0x0F)], stored in a [uint8_t]. *)
Definition bcd_to_int (bcd : Z) : Z :=
  u8 (Z.shiftr bcd 4 * 10 + Z.land bcd 15).

(** [static uint32_t pack_time(uint8_t hour, uint8_t min, uint8_t sec)]. *)
Definition pack_time (hour min sec : Z) : Z :=
  Z.lor (Z.lor (u32 (Z.shiftl (u32 (int_to_bcd hour)) 24))
               (u32 (Z.shiftl (u32 (int_to_bcd min)) 16)))
        (u32 (Z.shiftl (u32 (int_to_bcd sec)) 8)).

(** [static uint32_t pack_date(uint16_t year, uint8_t month, uint8_t day)];
    [year % 100] is converted to the [uint8_t] parameter of [int_to_bcd]. *)
Definition pack_date (year month day : Z) : Z :=
  Z.lor (Z.lor (u32 (Z.shiftl (u32 (int_to_bcd (u8 (year mod 100)))) 24))
               (u32 (Z.shiftl (u32 (int_to_bcd month)) 16)))
        (u32 (Z.shiftl (u32 (int_to_bcd day)) 8)).

(** Field extraction [(reg >> n) & 0xFF], stored in a [uint8_t]. *)
Definition reg_byte (reg n : Z) : Z := u8 (Z.land (Z.shiftr reg n) 255).

(** The three fields of a TIME or DATE register image, decoded: bytes 3, 2
    and 1 (lines 146-151) through the decoding expression. *)
Definition unpack_fields (reg : Z) : Z * Z * Z :=
  (bcd_to_int (reg_byte reg 24),
   bcd_to_int (reg_byte reg 16),
   bcd_to_int (reg_byte reg 8)).

(** A byte whose two nibbles are decimal digits. *)
Definition valid_bcd (b : Z) : Prop :=
  0 <= Z.shiftr b 4 <= 9 /\ 0 <= Z.land b 15 <= 9.

(** ** Hardware and program state *)

(** Contents of the two RTCC registers at one instant. *)
Record rtcc := { RTCDATE : Z; RTCTIME : Z }.

(** The peripheral counts on its own, asynchronously to the program: [hw k]
    is what the registers hold at the instant of the program's [k]-th
    register read.  Every register source, in particular a scripted one, is
    such a function. *)
Definition hardware := nat -> rtcc.

(** The globals of the translation unit, the UART transcript and the number
    of register reads performed so far. *)
Record state := {
  current_datetime : list Z;      (* char current_datetime[20] *)
  multiTariff : Z;                (* extern int multiTariff *)
  peak_start_minutes : Z;         (* static uint16_t *)
  peak_end_minutes : Z;           (* static uint16_t *)
  uart1 : list string;            (* strings sent to UART1, oldest first *)
  reads : nat
}.

(** The state at program start: zero-initialised buffer, the window
    initialisers of lines 22-23, nothing sent, nothing read. *)
Definition initial_state (tariff : Z) : state :=
  {| current_datetime := repeat 0 20; multiTariff := tariff;
     peak_start_minutes := 0; peak_end_minutes := 0;
     uart1 := []; reads := O |}.

(** Computations over the state; [None] stands for a busy-wait loop that
    has not exited when the fuel is spent. *)
Definition M (A : Type) : Type := state -> option (A * state).

Definition ret {A} (a : A) : M A := fun s => Some (a, s).

Definition bind {A B} (c : M A) (k : A -> M B) : M B :=
  fun s => match c s with
           | Some (a, s') => k a s'
           | None => None
           end.

Declare Scope rtc_scope.
Delimit Scope rtc_scope with rtc.
Notation "'let!' x ':=' c 'in' k" := (bind c (fun x => k))
  (at level 10, x name, c at level 100, k at level 200, only parsing)
  : rtc_scope.
Notation "'do!' c 'in' k" := (bind c (fun _ => k))
  (at level 10, c at level 100, k at level 200, only parsing) : rtc_scope.

Definition get : M state := fun s => Some (s, s).

(** A volatile read of [RTCDATE] or [RTCTIME]: a [uint32_t], and one more
    read performed. *)
Definition tick (s : state) : state :=
  {| current_datetime := current_datetime s; multiTariff := multiTariff s;
     peak_start_minutes := peak_start_minutes s;
     peak_end_minutes := peak_end_minutes s;
     uart1 := uart1 s; reads := S (reads s) |}.

Definition read_RTCDATE (hw : hardware) : M Z :=
  fun s => Some (u32 (RTCDATE (hw (reads s))), tick s).

Definition read_RTCTIME (hw : hardware) : M Z :=
  fun s => Some (u32 (RTCTIME (hw (reads s))), tick s).

(** Modelled from the spec: [__writeStringUart1] is defined outside rtc.c;
    it is the status sink, an append-only text channel that cannot fail. *)
Definition writeStringUart1 (line : string) : M unit :=
  fun s => Some (tt,
    {| current_datetime := current_datetime s; multiTariff := multiTariff s;
       peak_start_minutes := peak_start_minutes s;
       peak_end_minutes := peak_end_minutes s;
       uart1 := uart1 s ++ [line]; reads := reads s |}).

Definition set_multiTariff (v : Z) : M unit :=
  fun s => Some (tt,
    {| current_datetime := current_datetime s; multiTariff := i32 v;
       peak_start_minutes := peak_start_minutes s;
       peak_end_minutes := peak_end_minutes s;
       uart1 := uart1 s; reads := reads s |}).

Definition set_current_datetime (buf : list Z) : M unit :=
  fun s => Some (tt,
    {| current_datetime := buf; multiTariff := multiTariff s;
       peak_start_minutes := peak_start_minutes s;
       peak_end_minutes := peak_end_minutes s;
       uart1 := uart1 s; reads := reads s |}).

Definition set_peak_window (start_minutes end_minutes : Z) : M unit :=
  fun s => Some (tt,
    {| current_datetime := current_datetime s; multiTariff := multiTariff s;
       peak_start_minutes := u16 start_minutes;
       peak_end_minutes := u16 end_minutes;
       uart1 := uart1 s; reads := reads s |}).

(** [do body while (again)]: the body runs at least once. *)
Fixpoint do_while {A} (fuel : nat) (body : M A) (again : A -> bool) : M A :=
  fun s =>
    match fuel with
    | O => None
    | S fuel' =>
        match body s with
        | Some (a, s') =>
            if again a then do_while fuel' body again s' else Some (a, s')
        | None => None
        end
    end.

(** ** Consistent register sampler (lines 138-143 and 201-204) *)

Local Open Scope rtc_scope.

(** One pass of the loop body of [RTC_UpdateDateTime]: four reads. *)
Definition read_date_time_twice (hw : hardware) : M (Z * Z * Z * Z) :=
  let! date_reg := read_RTCDATE hw in
  let! time_reg := read_RTCTIME hw in
  let! date_check := read_RTCDATE hw in
  let! time_check := read_RTCTIME hw in
  ret (date_reg, time_reg, date_check, time_check).

(** The loop condition
    [(date_reg != date_check) || (time_reg != time_check)]. *)
Definition date_time_differ (r : Z * Z * Z * Z) : bool :=
  let '(date_reg, time_reg, date_check, time_check) := r in
  negb (date_reg =? date_check) || negb (time_reg =? time_check).

(** The sampler of [RTC_UpdateDateTime]: the pair [(date_reg, time_reg)]
    the loop leaves in its variables. *)
Definition sample (fuel : nat) (hw : hardware) : M (Z * Z) :=
  let! r := do_while fuel (read_date_time_twice hw) date_time_differ in
  ret (fst (fst (fst r)), snd (fst (fst r))).

(** One pass of the loop body of [checkPeakHours]: two reads. *)
Definition read_time_twice (hw : hardware) : M (Z * Z) :=
  let! time_reg := read_RTCTIME hw in
  let! time_check := read_RTCTIME hw in
  ret (time_reg, time_check).

Definition time_differ (r : Z * Z) : bool := negb (fst r =? snd r).

(** The sampler of [checkPeakHours]: TIME register only. *)
Definition sample_time (fuel : nat) (hw : hardware) : M Z :=
  let! r := do_while fuel (read_time_twice hw) time_differ in
  ret (fst r).

(** ** Date/time formatter (lines 145-173) *)

(** Character constants, and conversion of an [int] to [char] (8 bits,
    signed on this target; every value stored below is in 0..63). *)
Definition chr (c : ascii) : Z := Z.of_N (N_of_ascii c).
Definition to_char (x : Z) : Z := (x + 128) mod 256 - 128.

(** The twenty stores into [current_datetime], in program order. *)
Definition format_datetime (date_reg time_reg : Z) (buf : list Z) : list Z :=
  let year_bcd := reg_byte date_reg 24 in
  let month_bcd := reg_byte date_reg 16 in
  let day_bcd := reg_byte date_reg 8 in
  let hour_bcd := reg_byte time_reg 24 in
  let min_bcd := reg_byte time_reg 16 in
  let sec_bcd := reg_byte time_reg 8 in
  let buf := <[0%nat := to_char (chr "2")]> buf in
  let buf := <[1%nat := to_char (chr "0")]> buf in
  let buf := <[2%nat := to_char (Z.shiftr year_bcd 4 + chr "0")]> buf in
  let buf := <[3%nat := to_char (Z.land year_bcd 15 + chr "0")]> buf in
  let buf := <[4%nat := to_char (chr "-")]> buf in
  let buf := <[5%nat := to_char (Z.shiftr month_bcd 4 + chr "0")]> buf in
  let buf := <[6%nat := to_char (Z.land month_bcd 15 + chr "0")]> buf in
  let buf := <[7%nat := to_char (chr "-")]> buf in
  let buf := <[8%nat := to_char (Z.shiftr day_bcd 4 + chr "0")]> buf in
  let buf := <[9%nat := to_char (Z.land day_bcd 15 + chr "0")]> buf in
  let buf := <[10%nat := to_char (chr " ")]> buf in
  let buf := <[11%nat := to_char (Z.shiftr hour_bcd 4 + chr "0")]> buf in
  let buf := <[12%nat := to_char (Z.land hour_bcd 15 + chr "0")]> buf in
  let buf := <[13%nat := to_char (chr ":")]> buf in
  let buf := <[14%nat := to_char (Z.shiftr min_bcd 4 + chr "0")]> buf in
  let buf := <[15%nat := to_char (Z.land min_bcd 15 + chr "0")]> buf in
  let buf := <[16%nat := to_char (chr ":")]> buf in
  let buf := <[17%nat := to_char (Z.shiftr sec_bcd 4 + chr "0")]> buf in
  let buf := <[18%nat := to_char (Z.land sec_bcd 15 + chr "0")]> buf in
  <[19%nat := to_char 0]> buf.

(** [void RTC_UpdateDateTime(void)]. *)
Definition RTC_UpdateDateTime (fuel : nat) (hw : hardware) : M unit :=
  let! r := sample fuel hw in
  let! s := get in
  set_current_datetime (format_datetime (fst r) (snd r) (current_datetime s)).

(** The C string held by a buffer: the characters before the first NUL. *)
Fixpoint c_string (buf : list Z) : string :=
  match buf with
  | [] => EmptyString
  | c :: rest =>
      if c =? 0 then EmptyString
      else String (ascii_of_N (Z.to_N c)) (c_string rest)
  end.

(** The pattern of the specification, following its words: a value below
    100 as two zero-padded decimal digits, and [20YY-MM-DD HH:MM:SS]. *)
Definition digit_char (d : Z) : ascii := ascii_of_N (Z.to_N (d + chr "0")).

Definition two_digits (n : Z) : string :=
  String (digit_char (n / 10)) (String (digit_char (n mod 10)) EmptyString).

Definition spec_timestamp (yy mo dd hh mi ss : Z) : string :=
  ("20" ++ two_digits yy ++ "-" ++ two_digits mo ++ "-" ++ two_digits dd
   ++ " " ++ two_digits hh ++ ":" ++ two_digits mi ++ ":" ++ two_digits ss)%string.

(** ** Peak-window classifier (lines 185-226) *)

Inductive TariffState : Type := Peak | OffPeak.

(** [void setpeakhours(uint8_t, uint8_t, uint8_t, uint8_t)]: the sums are
    computed in [int] and stored in the [uint16_t] window bounds. *)
Definition setpeakhours (start_hour start_min end_hour end_min : Z) : M unit :=
  set_peak_window (i32 (i32 (start_hour * 60) + start_min))
                  (i32 (i32 (end_hour * 60) + end_min)).

(** Lines 207-215: minutes since midnight of a TIME register image. *)
Definition current_minutes (time_reg : Z) : Z :=
  let hour_bcd := reg_byte time_reg 24 in
  let min_bcd := reg_byte time_reg 16 in
  let current_hour := bcd_to_int hour_bcd in
  let current_min := bcd_to_int min_bcd in
  u16 (i32 (i32 (current_hour * 60) + current_min)).

(** The condition of lines 218-219. *)
Definition in_peak_window (s : state) (time_reg : Z) : bool :=
  (peak_start_minutes s <=? current_minutes time_reg)
  && (current_minutes time_reg <? peak_end_minutes s).

(** The tariff state: which branch of lines 218-225 is taken. *)
Definition classify (s : state) (time_reg : Z) : TariffState :=
  if in_peak_window s time_reg then Peak else OffPeak.

Definition newline : string := String "010"%char EmptyString.
Definition peak_line : string := ("(PEAK-HOUR)" ++ newline)%string.
Definition offpeak_line : string := ("(OFFPEAK-HOUR)" ++ newline)%string.

(** [void checkPeakHours(void)]. *)
Definition checkPeakHours (fuel : nat) (hw : hardware) : M unit :=
  let! time_reg := sample_time fuel hw in
  let! s := get in
  if in_peak_window s time_reg then
    do! writeStringUart1 peak_line in
    set_multiTariff 1
  else
    do! writeStringUart1 offpeak_line in
    set_multiTariff 0.

(** [needle] occurs in [line]. *)
Definition contains (needle line : string) : bool :=
  match String.index 0 needle line with Some _ => true | None => false end.

Local Close Scope rtc_scope.

(** ** Vocabulary for the statements about the samplers *)

(** The state after [m] more register reads, everything else untouched. *)
Definition advance (m : nat) (s : state) : state :=
  {| current_datetime := current_datetime s; multiTariff := multiTariff s;
     peak_start_minutes := peak_start_minutes s;
     peak_end_minutes := peak_end_minutes s;
     uart1 := uart1 s; reads := (m + reads s)%nat |}.

(** What a read of each register returns at read [k]. *)
Definition date_at (hw : hardware) (k : nat) : Z := u32 (RTCDATE (hw k)).
Definition time_at (hw : hardware) (k : nat) : Z := u32 (RTCTIME (hw k)).

(** The values a pass of each loop body obtains when it starts at read [k]. *)
Definition date_time_pass (hw : hardware) (k : nat) : Z * Z * Z * Z :=
  (date_at hw k, time_at hw (1 + k), date_at hw (2 + k), time_at hw (3 + k)).

Definition time_pass (hw : hardware) (k : nat) : Z * Z :=
  (time_at hw k, time_at hw (1 + k)).

(** Starting at read [k0], pass number [n] (from 0) is the first one whose
    reads agree. *)
Definition first_agreement {A} (again : A -> bool) (obs : nat -> A)
    (w k0 n : nat) : Prop :=
  (forall j, (j < n)%nat -> again (obs (j * w + k0)%nat) = true) /\
  again (obs (n * w + k0)%nat) = false.

(** A scripted register source: the registers hold the listed contents at
    the successive reads, then [rest] for ever. *)
Definition scripted (script : list rtcc) (rest : rtcc) : hardware :=
  fun k => nth k script rest.

(** A register source that changes under the first [N] passes of a loop
    whose body performs [w] reads, and is quiet afterwards. *)
Definition glitching_source (w N : nat) : hardware :=
  fun k =>
    if ((k <? N * w)%nat && (k mod w =? 0)%nat)%bool
    then {| RTCDATE := 1; RTCTIME := 1 |}
    else {| RTCDATE := 0; RTCTIME := 0 |}.

(** The source of the sampler test: one pass torn by a tick between its
    two TIME reads, then quiet. *)
Definition torn_once : hardware :=
  scripted [ {| RTCDATE := pack_date 2025 8 8; RTCTIME := pack_time 14 30 4 |};
             {| RTCDATE := pack_date 2025 8 8; RTCTIME := pack_time 14 30 4 |};
             {| RTCDATE := pack_date 2025 8 8; RTCTIME := pack_time 14 30 5 |};
             {| RTCDATE := pack_date 2025 8 8; RTCTIME := pack_time 14 30 5 |} ]
           {| RTCDATE := pack_date 2025 8 8; RTCTIME := pack_time 14 30 5 |}.

(** The state [checkPeakHours] leaves when it has sampled in state [s] and
    taken the branch named by [ts]. *)
Definition status_line (ts : TariffState) : string :=
  match ts with Peak => peak_line | OffPeak => offpeak_line end.

Definition tariff_flag (ts : TariffState) : Z :=
  match ts with Peak => 1 | OffPeak => 0 end.

Definition reported (ts : TariffState) (s : state) : state :=
  {| current_datetime := current_datetime s; multiTariff := tariff_flag ts;
     peak_start_minutes := peak_start_minutes s;
     peak_end_minutes := peak_end_minutes s;
     uart1 := uart1 s ++ [status_line ts]; reads := reads s |}.

(** ** Display (lines 233-237) *)

Definition carriage_return : string := String "013"%char EmptyString.

Definition current_time_label : string :=
  (newline ++ carriage_return ++ "Current Time: ")%string.

Local Open Scope rtc_scope.

(** [void display_current_time()]: the second string is [current_datetime]
    read as a C string, up to its first NUL. *)
Definition display_current_time : M unit :=
  do! writeStringUart1 current_time_label in
  let! s := get in
  do! writeStringUart1 (c_string (current_datetime s)) in
  writeStringUart1 newline.

Local Close Scope rtc_scope.

(** ** Clock initialisation (lines 71-123) *)

(** The special-function registers [__initRTC] touches. *)
Module SFR.
Inductive t : Type := SYSKEY | RTCCON | RTCCONSET | RTCCONCLR | RTCTIME | RTCDATE.

Definition eqb (a b : t) : bool :=
  match a, b with
  | SYSKEY, SYSKEY | RTCCON, RTCCON | RTCCONSET, RTCCONSET
  | RTCCONCLR, RTCCONCLR | RTCTIME, RTCTIME | RTCDATE, RTCDATE => true
  | _, _ => false
  end.
End SFR.

(** What [__initRTC] does on the register bus, in program order: a store
    of a [uint32_t] to a register, an assignment to the bit-field
    [RTCCONbits.ON], a load, or a [nop] instruction. *)
Inductive bus_event : Type :=
  | Store (r : SFR.t) (v : Z)
  | StoreON (v : Z)
  | Load (r : SFR.t) (v : Z)
  | Nop.

(** Lines 73-96: everything before the wait. *)
Definition initRTC_before_wait (time date : Z) : list bus_event :=
  [ StoreON 0;
    Store SFR.SYSKEY (u32 0xAA996655);
    Store SFR.SYSKEY (u32 0x556699AA);
    Store SFR.RTCCONSET (u32 8);
    Store SFR.SYSKEY (u32 0);
    Store SFR.RTCCONCLR (u32 0x8000);
    Store SFR.RTCCONCLR (u32 0x8000);
    Store SFR.RTCCONCLR (u32 0x8000);
    Store SFR.RTCCONCLR (u32 0x8000);
    Nop; Nop; Nop; Nop; Nop; Nop; Nop; Nop;
    Store SFR.RTCTIME (u32 time);
    Store SFR.RTCDATE (u32 date);
    Store SFR.RTCCONSET (u32 0x8000) ].

(** Line 97, [while (!(RTCCON & 0x000040));]: [rtccon k] is what the
    [k]-th load of [RTCCON] returns; the loads performed, or [None] when the
    fuel is spent before bit 6 reads as set. *)
Fixpoint wait_clock_running (fuel : nat) (rtccon : nat -> Z) (k : nat)
    : option (list bus_event) :=
  match fuel with
  | O => None
  | S fuel' =>
      let v := u32 (rtccon k) in
      if Z.land v 0x40 =? 0 then
        match wait_clock_running fuel' rtccon (S k) with
        | Some loads => Some (Load SFR.RTCCON v :: loads)
        | None => None
        end
      else Some [Load SFR.RTCCON v]
  end.

(** Lines 100-106: everything after the wait. *)
Definition initRTC_after_wait : list bus_event :=
  [ Store SFR.SYSKEY (u32 0xAA996655);
    Store SFR.SYSKEY (u32 0x556699AA);
    Store SFR.RTCCONCLR (u32 8);
    Store SFR.SYSKEY (u32 0);
    StoreON 1 ].

(** [void __initRTC(uint32_t time, uint32_t date)]. *)
Definition initRTC (fuel : nat) (rtccon : nat -> Z) (time date : Z)
    : option (list bus_event) :=
  match wait_clock_running fuel rtccon O with
  | Some loads =>
      Some (initRTC_before_wait time date ++ loads ++ initRTC_after_wait)
  | None => None
  end.

(** [void RTC_Initialize(uint16_t year, uint8_t month, uint8_t day,
    uint8_t hour, uint8_t minute, uint8_t second)]. *)
Definition RTC_Initialize (fuel : nat) (rtccon : nat -> Z)
    (year month day hour minute second : Z) : option (list bus_event) :=
  let rtc_time := pack_time hour minute second in
  let rtc_date := pack_date year month day in
  initRTC fuel rtccon rtc_time rtc_date.

(** ** Vocabulary for the further statements *)

(** The values stored to register [r], in order. *)
Fixpoint stores_to (r : SFR.t) (tr : list bus_event) : list Z :=
  match tr with
  | [] => []
  | Store r' v :: rest =>
      if SFR.eqb r r' then v :: stores_to r rest else stores_to r rest
  | _ :: rest => stores_to r rest
  end.

(** The number of loads in a trace. *)
Fixpoint loads_in (tr : list bus_event) : nat :=
  match tr with
  | [] => O
  | Load _ _ :: rest => S (loads_in rest)
  | _ :: rest => loads_in rest
  end.

(** A register source that never changes. *)
Definition steady (r : rtcc) : hardware := fun _ => r.

(** [valid_bcd] as a test. *)
Definition valid_bcdb (b : Z) : bool :=
  (0 <=? Z.shiftr b 4) && (Z.shiftr b 4 <=? 9)
  && (0 <=? Z.land b 15) && (Z.land b 15 <=? 9).

(** The datetime buffer has its twenty cells and ends with a NUL, so that
    reading it as a C string stays inside it. *)
Definition datetime_terminated (s : state) : Prop :=
  length (current_datetime s) = 20%nat /\
  current_datetime s !! 19%nat = Some 0.

(** Sequencing of two calls. *)
Definition seq_call {A B} (c : M A) (k : M B) : M B := bind c (fun _ => k).

(** A store of [v] to [RTCCONSET] asks for the bits of [v] to be set in
    [RTCCON], a store to [RTCCONCLR] for them to be cleared; bit 3 is the
    write access that lines 78 and 102 switch on and off. *)
Definition write_access_bit (v : Z) : bool := negb (Z.land v 8 =? 0).

(** Whether write access is switched on after the stores of a trace, given
    whether it was before. *)
Fixpoint write_access_after (en : bool) (tr : list bus_event) : bool :=
  match tr with
  | [] => en
  | Store SFR.RTCCONSET v :: rest =>
      write_access_after (en || write_access_bit v) rest
  | Store SFR.RTCCONCLR v :: rest =>
      write_access_after (en && negb (write_access_bit v)) rest
  | Store SFR.RTCCON v :: rest => write_access_after (write_access_bit v) rest
  | _ :: rest => write_access_after en rest
  end.

(** Every store to [RTCTIME] or [RTCDATE] in the trace comes while write
    access is switched on. *)
Fixpoint clock_stores_guarded (en : bool) (tr : list bus_event) : bool :=
  match tr with
  | [] => true
  | Store SFR.RTCTIME _ :: rest | Store SFR.RTCDATE _ :: rest =>
      en && clock_stores_guarded en rest
  | Store SFR.RTCCONSET v :: rest =>
      clock_stores_guarded (en || write_access_bit v) rest
  | Store SFR.RTCCONCLR v :: rest =>
      clock_stores_guarded (en && negb (write_access_bit v)) rest
  | Store SFR.RTCCON v :: rest => clock_stores_guarded (write_access_bit v) rest
  | _ :: rest => clock_stores_guarded en rest
  end.

(** Load number [n] of [RTCCON] (from 0) is the first that shows bit 6,
    the clock-running status, set. *)
Definition first_running (rtccon : nat -> Z) (n : nat) : Prop :=
  (forall j, (j < n)%nat -> Z.land (u32 (rtccon j)) 0x40 = 0) /\
  Z.land (u32 (rtccon n)) 0x40 <> 0.

(** ** Codec lemmas *)

Lemma u8_small x : 0 <= x < 256 -> u8 x = x.
Proof. intros H. unfold u8. now apply Z.mod_small. Qed.

Lemma u32_small x : 0 <= x < 4294967296 -> u32 x = x.
Proof. intros H. unfold u32. now apply Z.mod_small. Qed.

Lemma u8_range x : 0 <= u8 x < 256.
Proof. unfold u8. apply Z.mod_pos_bound. lia. Qed.

(** Or-ing a left-shifted value with one that fits below the shift adds. *)
Lemma lor_shiftl_add hi lo n :
  0 <= n -> 0 <= lo < 2 ^ n -> Z.lor (Z.shiftl hi n) lo = hi * 2 ^ n + lo.
Proof.
  intros Hn Hlo.
  rewrite Z.shiftl_mul_pow2 by lia.
  assert (Hd : Z.land (hi * 2 ^ n) lo = 0).
  { replace lo with (Z.land (Z.ones n) lo) at 1.
    - rewrite Z.land_assoc, Z.land_ones by lia.
      rewrite Z.mod_mul by lia. apply Z.land_0_l.
    - rewrite Z.land_comm, Z.land_ones by lia. now apply Z.mod_small. }
  rewrite <- Z.lxor_lor, <- Z.add_nocarry_lxor by exact Hd. reflexivity.
Qed.

(** A digit pair packed with shift and or is the sum of its parts. *)
Lemma lor_nibbles hi lo :
  0 <= lo < 16 -> Z.lor (Z.shiftl hi 4) lo = hi * 16 + lo.
Proof. intros Hlo. now rewrite lor_shiftl_add by (simpl; lia). Qed.

(** The two nibbles of a byte written as [hi * 16 + lo]. *)
Lemma nibbles_of_sum hi lo :
  0 <= lo < 16 ->
  Z.shiftr (hi * 16 + lo) 4 = hi /\ Z.land (hi * 16 + lo) 15 = lo.
Proof.
  intros Hlo. split.
  - rewrite Z.shiftr_div_pow2 by lia. change (2 ^ 4) with 16.
    rewrite Z.div_add_l, Z.div_small by lia. lia.
  - change 15 with (Z.ones 4). rewrite Z.land_ones by lia.
    change (2 ^ 4) with 16.
    rewrite Z.add_comm, Z.mod_add by lia. now apply Z.mod_small.
Qed.

Lemma int_to_bcd_digits v :
  0 <= v <= 99 -> int_to_bcd v = (v / 10) * 16 + v mod 10.
Proof.
  intros Hv. unfold int_to_bcd.
  assert (Hq : 0 <= v / 10 <= 9).
  { split; [apply Z.div_pos; lia |].
    enough (v / 10 < 10) by lia. apply Z.div_lt_upper_bound; lia. }
  assert (Hr : 0 <= v mod 10 < 10) by (apply Z.mod_pos_bound; lia).
  rewrite lor_nibbles by lia. apply u8_small. lia.
Qed.

Lemma int_to_bcd_range v : 0 <= int_to_bcd v < 256.
Proof. apply u8_range. Qed.

(** Decoding what [int_to_bcd] encodes. *)
Lemma bcd_to_int_int_to_bcd v :
  0 <= v <= 99 -> bcd_to_int (int_to_bcd v) = v.
Proof.
  intros Hv. rewrite int_to_bcd_digits by exact Hv. unfold bcd_to_int.
  assert (Hr : 0 <= v mod 10 < 10) by (apply Z.mod_pos_bound; lia).
  destruct (nibbles_of_sum (v / 10) (v mod 10)) as [-> ->]; [lia |].
  rewrite (Z.mul_comm _ 10), <- Z.div_mod by lia.
  apply u8_small. lia.
Qed.

(** The encoding of a value below 100 has decimal nibbles. *)
Lemma int_to_bcd_valid v : 0 <= v <= 99 -> valid_bcd (int_to_bcd v).
Proof.
  intros Hv. rewrite int_to_bcd_digits by exact Hv. unfold valid_bcd.
  assert (Hr : 0 <= v mod 10 < 10) by (apply Z.mod_pos_bound; lia).
  assert (Hq : 0 <= v / 10 < 10).
  { split; [apply Z.div_pos; lia | apply Z.div_lt_upper_bound; lia]. }
  destruct (nibbles_of_sum (v / 10) (v mod 10)) as [-> ->]; lia.
Qed.

(** The register image built by [pack_time] and [pack_date] from three
    bytes, as a sum: no conversion to [uint32_t] loses a bit. *)
Lemma reg_image_sum a b c :
  is_u8 a -> is_u8 b -> is_u8 c ->
  Z.lor (Z.lor (u32 (Z.shiftl (u32 a) 24)) (u32 (Z.shiftl (u32 b) 16)))
        (u32 (Z.shiftl (u32 c) 8))
  = a * 16777216 + b * 65536 + c * 256.
Proof.
  unfold is_u8. intros Ha Hb Hc.
  rewrite !(u32_small a), !(u32_small b), !(u32_small c) by lia.
  rewrite !Z.shiftl_mul_pow2 by lia.
  change (2 ^ 24) with 16777216. change (2 ^ 16) with 65536.
  change (2 ^ 8) with 256.
  rewrite !u32_small by lia.
  replace (a * 16777216) with (Z.shiftl a 24)
    by (rewrite Z.shiftl_mul_pow2 by lia; reflexivity).
  rewrite lor_shiftl_add by (simpl; lia).
  change (2 ^ 24) with 16777216.
  replace (a * 16777216 + b * 65536) with (Z.shiftl (a * 256 + b) 16)
    by (rewrite Z.shiftl_mul_pow2 by lia; change (2 ^ 16) with 65536; lia).
  rewrite lor_shiftl_add by (simpl; lia).
  rewrite Z.shiftl_mul_pow2 by lia.
  change (2 ^ 16) with 65536. change (2 ^ 24) with 16777216. lia.
Qed.

(** Bytes 3, 2 and 1 of a register image, whatever its reserved byte. *)
Lemma reg_byte_fields a b c r :
  is_u8 a -> is_u8 b -> is_u8 c -> is_u8 r ->
  reg_byte (a * 16777216 + b * 65536 + c * 256 + r) 24 = a /\
  reg_byte (a * 16777216 + b * 65536 + c * 256 + r) 16 = b /\
  reg_byte (a * 16777216 + b * 65536 + c * 256 + r) 8 = c.
Proof.
  unfold is_u8. intros Ha Hb Hc Hr. unfold reg_byte.
  change 255 with (Z.ones 8).
  rewrite !Z.land_ones, !Z.shiftr_div_pow2 by lia.
  change (2 ^ 24) with 16777216. change (2 ^ 16) with 65536.
  change (2 ^ 8) with 256.
  unfold u8. rewrite !Z.mod_mod by lia.
  repeat split; Z.div_mod_to_equations; lia.
Qed.

(** Packing three values below 100 and unpacking the image. *)
Lemma unpack_fields_image a b c :
  0 <= a <= 99 -> 0 <= b <= 99 -> 0 <= c <= 99 ->
  unpack_fields
    (Z.lor (Z.lor (u32 (Z.shiftl (u32 (int_to_bcd a)) 24))
                  (u32 (Z.shiftl (u32 (int_to_bcd b)) 16)))
           (u32 (Z.shiftl (u32 (int_to_bcd c)) 8)))
  = (a, b, c).
Proof.
  intros Ha Hb Hc.
  rewrite reg_image_sum by apply int_to_bcd_range.
  rewrite <- (Z.add_0_r (_ + _ + _)).
  destruct (reg_byte_fields (int_to_bcd a) (int_to_bcd b) (int_to_bcd c) 0)
    as (H3 & H2 & H1); try apply int_to_bcd_range; [unfold is_u8; lia |].
  unfold unpack_fields. rewrite H3, H2, H1.
  now rewrite !bcd_to_int_int_to_bcd by assumption.
Qed.

(** C4: for every value [v] in 0..99, decoding the BCD byte that
    [int_to_bcd] produces for [v], which is [((v/10) << 4) | (v % 10)],
    with the decoding expression [(byte >> 4) * 10 + (byte & 0xF)]
    returns [v]. *)
Theorem decode_bcd_encode_bcd (v : Z) :
  0 <= v <= 99 ->
  int_to_bcd v = Z.lor (Z.shiftl (v / 10) 4) (v mod 10) /\
  Z.shiftr (int_to_bcd v) 4 * 10 + Z.land (int_to_bcd v) 15 = v /\
  bcd_to_int (int_to_bcd v) = v.
Proof.
  intros Hv.
  assert (Hr : 0 <= v mod 10 < 10) by (apply Z.mod_pos_bound; lia).
  split; [| split].
  - rewrite int_to_bcd_digits, lor_nibbles by lia. reflexivity.
  - rewrite int_to_bcd_digits by exact Hv.
    destruct (nibbles_of_sum (v / 10) (v mod 10)) as [-> ->]; [lia |].
    rewrite (Z.mul_comm _ 10). symmetry. apply Z.div_mod. lia.
  - now apply bcd_to_int_int_to_bcd.
Qed.

Lemma decode_bcd_encode_bcd_witness :
  int_to_bcd 59 = Z.lor (Z.shiftl (59 / 10) 4) (59 mod 10) /\
  Z.shiftr (int_to_bcd 59) 4 * 10 + Z.land (int_to_bcd 59) 15 = 59 /\
  bcd_to_int (int_to_bcd 59) = 59.
Proof. apply (decode_bcd_encode_bcd 59). lia. Defined.

(** C7: for every hour in 0..23, minute in 0..59 and second in 0..59,
    extracting bytes 3, 2 and 1 of the word [pack_time hour minute second]
    and BCD-decoding them returns exactly [(hour, minute, second)]. *)
Theorem unpack_time_pack_time (hour minute second : Z) :
  0 <= hour <= 23 -> 0 <= minute <= 59 -> 0 <= second <= 59 ->
  unpack_fields (pack_time hour minute second) = (hour, minute, second).
Proof.
  intros Hh Hm Hs. unfold pack_time. apply unpack_fields_image; lia.
Qed.

Lemma unpack_time_pack_time_witness :
  unpack_fields (pack_time 23 59 58) = (23, 59, 58).
Proof. apply (unpack_time_pack_time 23 59 58); lia. Defined.

(** C8: for every year (a [uint16_t]), month in 1..12 and day in 1..31,
    unpacking the word [pack_date year month day] returns
    [(year mod 100, month, day)]; the century is dropped, so the year 2105
    decodes as 5. *)
Theorem unpack_date_pack_date (year month day : Z) :
  is_u16 year -> 1 <= month <= 12 -> 1 <= day <= 31 ->
  unpack_fields (pack_date year month day) = (year mod 100, month, day) /\
  unpack_fields (pack_date 2105 month day) = (5, month, day).
Proof.
  intros Hy Hm Hd.
  assert (Hcut : forall y, 0 <= y mod 100 <= 99 /\ u8 (y mod 100) = y mod 100).
  { intros y. pose proof (Z.mod_pos_bound y 100 ltac:(lia)) as Hb.
    split; [lia | apply u8_small; lia]. }
  unfold pack_date. split.
  - destruct (Hcut year) as [Hb ->]. apply unpack_fields_image; lia.
  - destruct (Hcut 2105) as [Hb ->]. apply unpack_fields_image; lia.
Qed.

Lemma unpack_date_pack_date_witness :
  unpack_fields (pack_date 2099 12 31) = (2099 mod 100, 12, 31) /\
  unpack_fields (pack_date 2105 12 31) = (5, 12, 31).
Proof.
  apply (unpack_date_pack_date 2099 12 31); unfold is_u16; lia.
Defined.


(** ** The busy-retry loop *)

Section Loop.

Context {A : Type}.
Variable body : M A.
Variable again : A -> bool.
Variable obs : nat -> A.
Variable w : nat.

(** The body always completes: it performs [w] reads and what it obtains
    depends only on the read index it starts at. *)
Hypothesis body_reads : forall s, body s = Some (obs (reads s), advance w s).

Lemma advance_index m m' s : m = m' -> advance m s = advance m' s.
Proof. now intros ->. Qed.

Lemma advance_advance m k s : advance m (advance k s) = advance (m + k) s.
Proof. unfold advance; simpl. f_equal. lia. Qed.

(** With the first agreeing pass at [n], more than [n] units of fuel give
    the values of that pass. *)
Lemma do_while_exit n :
  forall fuel s,
    first_agreement again obs w (reads s) n -> (n < fuel)%nat ->
    do_while fuel body again s
    = Some (obs (n * w + reads s)%nat, advance (S n * w) s).
Proof.
  induction n as [| n IH]; intros fuel s [Hbefore Hat] Hfuel;
    (destruct fuel as [| fuel]; [lia |]); simpl do_while;
    rewrite body_reads.
  - simpl in Hat. rewrite Hat. do 2 f_equal. apply advance_index. lia.
  - pose proof (Hbefore O ltac:(lia)) as H0. simpl in H0. rewrite H0.
    rewrite (IH fuel (advance w s)); [| | lia].
    + rewrite advance_advance. simpl reads. do 2 f_equal.
      * f_equal. lia.
      * apply advance_index. lia.
    + split.
      * intros j Hj. simpl reads.
        replace (j * w + (w + reads s))%nat with (S j * w + reads s)%nat by lia.
        apply Hbefore. lia.
      * simpl reads.
        replace (n * w + (w + reads s))%nat with (S n * w + reads s)%nat by lia.
        exact Hat.
Qed.

(** Whatever the loop returns comes from a first agreeing pass. *)
Lemma do_while_Some fuel :
  forall s a s',
    do_while fuel body again s = Some (a, s') ->
    exists n, (n < fuel)%nat /\ first_agreement again obs w (reads s) n /\
              a = obs (n * w + reads s)%nat /\ s' = advance (S n * w) s.
Proof.
  induction fuel as [| fuel IH]; intros s a s' H; simpl in H; [discriminate |].
  rewrite body_reads in H.
  destruct (again (obs (reads s))) eqn:Hag.
  - apply IH in H. destruct H as (n & Hn & [Hbefore Hat] & -> & ->).
    simpl reads in *. exists (S n). split; [lia |]. split; [split |].
    + intros [| j] Hj; [exact Hag |].
      replace (S j * w + reads s)%nat with (j * w + (w + reads s))%nat by lia.
      apply Hbefore. lia.
    + replace (S n * w + reads s)%nat with (n * w + (w + reads s))%nat by lia.
      exact Hat.
    + split; [f_equal; lia |].
      rewrite advance_advance. apply advance_index. lia.
  - injection H as <- <-. exists O. split; [lia |]. split; [split |].
    + intros j Hj. lia.
    + exact Hag.
    + split; [reflexivity | apply advance_index; lia].
Qed.

(** The fuel runs out exactly when every pass it pays for disagrees. *)
Lemma do_while_None fuel :
  forall s,
    do_while fuel body again s = None <->
    (forall j, (j < fuel)%nat -> again (obs (j * w + reads s)%nat) = true).
Proof.
  induction fuel as [| fuel IH]; intros s; simpl do_while.
  - split; [intros _ j Hj; lia | reflexivity].
  - rewrite body_reads. destruct (again (obs (reads s))) eqn:Hag.
    + rewrite IH. simpl reads. split.
      * intros H [| j] Hj; [exact Hag |].
        replace (S j * w + reads s)%nat with (j * w + (w + reads s))%nat by lia.
        apply H. lia.
      * intros H j Hj.
        replace (j * w + (w + reads s))%nat with (S j * w + reads s)%nat by lia.
        apply H. lia.
    + split; [discriminate |]. intros H.
      specialize (H O ltac:(lia)). simpl in H. congruence.
Qed.

(** Any agreeing pass is preceded by a first one. *)
Lemma first_agreement_exists k0 n :
  again (obs (n * w + k0)%nat) = false ->
  exists m, (m <= n)%nat /\ first_agreement again obs w k0 m.
Proof.
  induction n as [n IH] using lt_wf_ind. intros Hn.
  destruct (forallb (fun j => again (obs (j * w + k0)%nat)) (seq 0 n)) eqn:Hall.
  - exists n. split; [lia |]. split; [| exact Hn].
    intros j Hj. rewrite forallb_forall in Hall.
    apply Hall. apply in_seq. lia.
  - assert (Hex : exists j, (j < n)%nat /\ again (obs (j * w + k0)%nat) = false).
    { clear IH Hn. induction n as [| n IHn]; [discriminate |].
      rewrite seq_S, forallb_app in Hall. simpl in Hall.
      destruct (forallb _ (seq 0 n)) eqn:Hpre.
      - exists n. split; [lia |].
        destruct (again (obs (n * w + k0)%nat)); [discriminate | reflexivity].
      - destruct (IHn eq_refl) as (j & Hj & Hjf). exists j. split; [lia | exact Hjf]. }
    destruct Hex as (j & Hj & Hjf).
    destruct (IH j Hj Hjf) as (m & Hm & Hfirst).
    exists m. split; [lia | exact Hfirst].
Qed.

End Loop.

(** ** The two samplers *)

Section Sampler.

Variable hw : hardware.

Lemma read_date_time_twice_reads s :
  read_date_time_twice hw s = Some (date_time_pass hw (reads s), advance 4 s).
Proof. reflexivity. Qed.

Lemma read_time_twice_reads s :
  read_time_twice hw s = Some (time_pass hw (reads s), advance 2 s).
Proof. reflexivity. Qed.

Lemma date_time_differ_false k :
  date_time_differ (date_time_pass hw k) = false <->
  date_at hw (2 + k) = date_at hw k /\ time_at hw (3 + k) = time_at hw (1 + k).
Proof.
  unfold date_time_differ, date_time_pass.
  rewrite orb_false_iff, !negb_false_iff, !Z.eqb_eq.
  split; intros [H1 H2]; split; congruence.
Qed.

Lemma time_differ_false k :
  time_differ (time_pass hw k) = false <-> time_at hw (1 + k) = time_at hw k.
Proof.
  unfold time_differ, time_pass. cbn [fst snd].
  rewrite negb_false_iff, Z.eqb_eq. split; intros H; symmetry; exact H.
Qed.

Lemma sample_exit n fuel s :
  first_agreement date_time_differ (date_time_pass hw) 4 (reads s) n ->
  (n < fuel)%nat ->
  sample fuel hw s
  = Some ((date_at hw (n * 4 + reads s), time_at hw (1 + (n * 4 + reads s))),
          advance (S n * 4) s).
Proof.
  intros Hfirst Hfuel. unfold sample, bind.
  now rewrite (do_while_exit _ _ _ _ read_date_time_twice_reads n fuel s).
Qed.

Lemma sample_Some fuel s d t s' :
  sample fuel hw s = Some ((d, t), s') ->
  exists n, (n < fuel)%nat /\
    first_agreement date_time_differ (date_time_pass hw) 4 (reads s) n /\
    d = date_at hw (n * 4 + reads s) /\
    t = time_at hw (1 + (n * 4 + reads s)) /\ s' = advance (S n * 4) s.
Proof.
  unfold sample, bind. intros H.
  destruct (do_while fuel _ _ s) as [[r s1] |] eqn:Hloop; [| discriminate].
  injection H as <- <- <-.
  apply (do_while_Some _ _ _ _ read_date_time_twice_reads) in Hloop.
  destruct Hloop as (n & Hn & Hfirst & -> & ->). exists n. auto.
Qed.

Lemma sample_None fuel s :
  sample fuel hw s = None <->
  (forall j, (j < fuel)%nat ->
             date_time_differ (date_time_pass hw (j * 4 + reads s)) = true).
Proof.
  rewrite <- (do_while_None _ _ _ _ read_date_time_twice_reads).
  unfold sample, bind.
  destruct (do_while fuel _ _ s) as [[r s1] |]; unfold ret; split; congruence.
Qed.

Lemma sample_time_exit n fuel s :
  first_agreement time_differ (time_pass hw) 2 (reads s) n ->
  (n < fuel)%nat ->
  sample_time fuel hw s
  = Some (time_at hw (n * 2 + reads s), advance (S n * 2) s).
Proof.
  intros Hfirst Hfuel. unfold sample_time, bind.
  now rewrite (do_while_exit _ _ _ _ read_time_twice_reads n fuel s).
Qed.

Lemma sample_time_Some fuel s t s' :
  sample_time fuel hw s = Some (t, s') ->
  exists n, (n < fuel)%nat /\
    first_agreement time_differ (time_pass hw) 2 (reads s) n /\
    t = time_at hw (n * 2 + reads s) /\ s' = advance (S n * 2) s.
Proof.
  unfold sample_time, bind. intros H.
  destruct (do_while fuel _ _ s) as [[r s1] |] eqn:Hloop; [| discriminate].
  injection H as <- <-.
  apply (do_while_Some _ _ _ _ read_time_twice_reads) in Hloop.
  destruct Hloop as (n & Hn & Hfirst & -> & ->). exists n. auto.
Qed.

Lemma sample_time_None fuel s :
  sample_time fuel hw s = None <->
  (forall j, (j < fuel)%nat ->
             time_differ (time_pass hw (j * 2 + reads s)) = true).
Proof.
  rewrite <- (do_while_None _ _ _ _ read_time_twice_reads).
  unfold sample_time, bind.
  destruct (do_while fuel _ _ s) as [[r s1] |]; unfold ret; split; congruence.
Qed.

End Sampler.

(** ** What the samplers return *)



Section Glitching.

Variable w : nat.
Hypothesis w_ge_2 : (2 <= w)%nat.

(** While it glitches, the source shows 1 at the first read of a pass and
    0 at the others. *)
Lemma glitching_first N j :
  (j < N)%nat -> glitching_source w N (j * w + 0)%nat = {| RTCDATE := 1; RTCTIME := 1 |}.
Proof.
  intros Hj. unfold glitching_source.
  rewrite Nat.add_0_r, Nat.Div0.mod_mul, Nat.eqb_refl, andb_true_r.
  assert (H : (j * w < N * w)%nat) by nia.
  apply Nat.ltb_lt in H. now rewrite H.
Qed.

Lemma glitching_later N j i :
  (0 < i < w)%nat -> glitching_source w N (i + (j * w + 0))%nat = {| RTCDATE := 0; RTCTIME := 0 |}.
Proof.
  intros Hi. unfold glitching_source.
  rewrite Nat.add_0_r, Nat.Div0.mod_add, Nat.mod_small by lia.
  destruct (Nat.eqb_spec i 0) as [-> | _]; [lia |].
  now rewrite andb_false_r.
Qed.

Lemma glitching_quiet N k :
  (N * w <= k)%nat -> glitching_source w N k = {| RTCDATE := 0; RTCTIME := 0 |}.
Proof.
  intros Hk. unfold glitching_source.
  apply Nat.ltb_ge in Hk. now rewrite Hk.
Qed.

End Glitching.

(** C9: the retry loop has no bound of its own: for every [N] there is a
    register source on which it is still retrying after [N] passes and
    returns at the next one.  When some pass obtains agreeing reads, the
    sampler returns with enough fuel, and what it returns is the agreeing
    pair of the first such pass. *)
Theorem sample_terminates_when_reads_agree :
  (forall (hw : hardware) (s : state) (n : nat),
     date_time_differ (date_time_pass hw (n * 4 + reads s)) = false ->
     exists m, (m <= n)%nat /\
       let k := (m * 4 + reads s)%nat in
       date_at hw (2 + k) = date_at hw k /\
       time_at hw (3 + k) = time_at hw (1 + k) /\
       forall fuel, (m < fuel)%nat ->
         sample fuel hw s
         = Some ((date_at hw k, time_at hw (1 + k)), advance (S m * 4) s)) /\
  (forall (hw : hardware) (s : state) (n : nat),
     time_differ (time_pass hw (n * 2 + reads s)) = false ->
     exists m, (m <= n)%nat /\
       let k := (m * 2 + reads s)%nat in
       time_at hw (1 + k) = time_at hw k /\
       forall fuel, (m < fuel)%nat ->
         sample_time fuel hw s = Some (time_at hw k, advance (S m * 2) s)) /\
  (forall N : nat, exists hw : hardware,
     sample N hw (initial_state 0) = None /\
     sample (S N) hw (initial_state 0)
     = Some ((0, 0), advance (S N * 4) (initial_state 0))) /\
  (forall N : nat, exists hw : hardware,
     sample_time N hw (initial_state 0) = None /\
     sample_time (S N) hw (initial_state 0)
     = Some (0, advance (S N * 2) (initial_state 0))).
Proof.
  split; [| split; [| split]].
  - intros hw s n Hn.
    destruct (first_agreement_exists date_time_differ (date_time_pass hw) 4
                (reads s) n Hn) as (m & Hm & Hfirst).
    exists m. split; [exact Hm |]. cbv zeta.
    destruct (proj1 (date_time_differ_false hw _) (proj2 Hfirst)) as [Hd Ht].
    repeat split; try assumption.
    intros fuel Hfuel. now apply sample_exit.
  - intros hw s n Hn.
    destruct (first_agreement_exists time_differ (time_pass hw) 2
                (reads s) n Hn) as (m & Hm & Hfirst).
    exists m. split; [exact Hm |]. cbv zeta.
    split; [apply time_differ_false, Hfirst |].
    intros fuel Hfuel. now apply sample_time_exit.
  - intros N. exists (glitching_source 4 N).
    assert (Hbusy : forall j, (j < N)%nat ->
              date_time_differ (date_time_pass (glitching_source 4 N) (j * 4 + 0)%nat) = true).
    { intros j Hj. unfold date_time_differ, date_time_pass, date_at, time_at.
      rewrite glitching_first by lia.
      rewrite !glitching_later by lia. reflexivity. }
    split.
    + apply sample_None. exact Hbusy.
    + rewrite (sample_exit _ N (S N)); [| split; [exact Hbusy |] | lia].
      * unfold date_at, time_at. rewrite !glitching_quiet by (simpl reads; lia).
        reflexivity.
      * unfold date_time_differ, date_time_pass, date_at, time_at.
        rewrite !glitching_quiet by (simpl reads; lia). reflexivity.
  - intros N. exists (glitching_source 2 N).
    assert (Hbusy : forall j, (j < N)%nat ->
              time_differ (time_pass (glitching_source 2 N) (j * 2 + 0)%nat) = true).
    { intros j Hj. unfold time_differ, time_pass, time_at.
      rewrite glitching_first by lia.
      rewrite !glitching_later by lia. reflexivity. }
    split.
    + apply sample_time_None. exact Hbusy.
    + rewrite (sample_time_exit _ N (S N)); [| split; [exact Hbusy |] | lia].
      * unfold time_at. rewrite !glitching_quiet by (simpl reads; lia).
        reflexivity.
      * unfold time_differ, time_pass, time_at.
        rewrite !glitching_quiet by (simpl reads; lia). reflexivity.
Qed.

Lemma sample_terminates_when_reads_agree_witness :
  exists m, (m <= 3)%nat /\
    let k := (m * 4 + reads (initial_state 0))%nat in
    date_at torn_once (2 + k) = date_at torn_once k /\
    time_at torn_once (3 + k) = time_at torn_once (1 + k) /\
    forall fuel, (m < fuel)%nat ->
      sample fuel torn_once (initial_state 0)
      = Some ((date_at torn_once k, time_at torn_once (1 + k)),
              advance (S m * 4) (initial_state 0)).
Proof.
  apply (proj1 sample_terminates_when_reads_agree torn_once (initial_state 0) 3%nat).
  reflexivity.
Defined.

(** ** The formatter *)

Lemma to_char_small x : 0 <= x < 128 -> to_char x = x.
Proof. intros Hx. unfold to_char. rewrite Z.mod_small by lia. lia. Qed.

(** On a twenty-character buffer the stores overwrite every cell. *)
Lemma format_datetime_cells date_reg time_reg (buf : list Z) :
  length buf = 20%nat ->
  format_datetime date_reg time_reg buf
  = [ to_char (chr "2"); to_char (chr "0");
      to_char (Z.shiftr (reg_byte date_reg 24) 4 + chr "0");
      to_char (Z.land (reg_byte date_reg 24) 15 + chr "0");
      to_char (chr "-");
      to_char (Z.shiftr (reg_byte date_reg 16) 4 + chr "0");
      to_char (Z.land (reg_byte date_reg 16) 15 + chr "0");
      to_char (chr "-");
      to_char (Z.shiftr (reg_byte date_reg 8) 4 + chr "0");
      to_char (Z.land (reg_byte date_reg 8) 15 + chr "0");
      to_char (chr " ");
      to_char (Z.shiftr (reg_byte time_reg 24) 4 + chr "0");
      to_char (Z.land (reg_byte time_reg 24) 15 + chr "0");
      to_char (chr ":");
      to_char (Z.shiftr (reg_byte time_reg 16) 4 + chr "0");
      to_char (Z.land (reg_byte time_reg 16) 15 + chr "0");
      to_char (chr ":");
      to_char (Z.shiftr (reg_byte time_reg 8) 4 + chr "0");
      to_char (Z.land (reg_byte time_reg 8) 15 + chr "0");
      to_char 0 ].
Proof.
  intros Hlen.
  do 20 (destruct buf as [| ? buf]; [discriminate |]).
  destruct buf; [reflexivity | discriminate].
Qed.

Lemma c_string_cons_pos c rest :
  0 < c < 128 ->
  c_string (to_char c :: rest) = String (ascii_of_N (Z.to_N c)) (c_string rest).
Proof.
  intros Hc. rewrite to_char_small by lia. simpl.
  destruct (Z.eqb_spec c 0); [lia | reflexivity].
Qed.

(** Twelve decimal digits laid out by the stores read back as a string. *)
Lemma c_string_digits y1 y0 m1 m0 d1 d0 h1 h0 i1 i0 s1 s0 :
  0 <= y1 <= 9 -> 0 <= y0 <= 9 -> 0 <= m1 <= 9 -> 0 <= m0 <= 9 ->
  0 <= d1 <= 9 -> 0 <= d0 <= 9 -> 0 <= h1 <= 9 -> 0 <= h0 <= 9 ->
  0 <= i1 <= 9 -> 0 <= i0 <= 9 -> 0 <= s1 <= 9 -> 0 <= s0 <= 9 ->
  c_string
    [ to_char (chr "2"); to_char (chr "0");
      to_char (y1 + chr "0"); to_char (y0 + chr "0"); to_char (chr "-");
      to_char (m1 + chr "0"); to_char (m0 + chr "0"); to_char (chr "-");
      to_char (d1 + chr "0"); to_char (d0 + chr "0"); to_char (chr " ");
      to_char (h1 + chr "0"); to_char (h0 + chr "0"); to_char (chr ":");
      to_char (i1 + chr "0"); to_char (i0 + chr "0"); to_char (chr ":");
      to_char (s1 + chr "0"); to_char (s0 + chr "0"); to_char 0 ]
  = String "2" (String "0"
      (String (digit_char y1) (String (digit_char y0) (String "-"
      (String (digit_char m1) (String (digit_char m0) (String "-"
      (String (digit_char d1) (String (digit_char d0) (String " "
      (String (digit_char h1) (String (digit_char h0) (String ":"
      (String (digit_char i1) (String (digit_char i0) (String ":"
      (String (digit_char s1) (String (digit_char s0)
         EmptyString)))))))))))))))))).
Proof.
  intros. change (chr "0") with 48.
  rewrite !c_string_cons_pos by (try lia; vm_compute; split; reflexivity).
  reflexivity.
Qed.

(** The two digits of a decoded BCD byte are its two nibbles. *)
Lemma two_digits_bcd b :
  valid_bcd b ->
  two_digits (bcd_to_int b)
  = String (digit_char (Z.shiftr b 4))
      (String (digit_char (Z.land b 15)) EmptyString).
Proof.
  intros [Hhi Hlo]. unfold two_digits, bcd_to_int.
  rewrite u8_small by lia.
  replace ((Z.shiftr b 4 * 10 + Z.land b 15) / 10) with (Z.shiftr b 4)
    by (Z.div_mod_to_equations; lia).
  replace ((Z.shiftr b 4 * 10 + Z.land b 15) mod 10) with (Z.land b 15)
    by (Z.div_mod_to_equations; lia).
  reflexivity.
Qed.


(** C3: for every sampled (DATE, TIME) pair whose six field bytes hold
    decimal digits, [RTC_UpdateDateTime] leaves in [current_datetime] exactly
    the 19 characters [20YY-MM-DD HH:MM:SS], each field zero-padded to two
    digits and the century fixed to 20, followed by a NUL; on the registers
    encoding 2025-08-08 14:30:05 the string is "2025-08-08 14:30:05". *)
Theorem RTC_UpdateDateTime_writes_timestamp
    (fuel : nat) (hw : hardware) (s s1 : state) (date_reg time_reg : Z) :
  length (current_datetime s) = 20%nat ->
  sample fuel hw s = Some ((date_reg, time_reg), s1) ->
  valid_bcd (reg_byte date_reg 24) -> valid_bcd (reg_byte date_reg 16) ->
  valid_bcd (reg_byte date_reg 8) ->
  valid_bcd (reg_byte time_reg 24) -> valid_bcd (reg_byte time_reg 16) ->
  valid_bcd (reg_byte time_reg 8) ->
  exists s',
    RTC_UpdateDateTime fuel hw s = Some (tt, s') /\
    length (current_datetime s') = 20%nat /\
    current_datetime s' !! 19%nat = Some 0 /\
    String.length (c_string (current_datetime s')) = 19%nat /\
    c_string (current_datetime s')
    = spec_timestamp (bcd_to_int (reg_byte date_reg 24))
                     (bcd_to_int (reg_byte date_reg 16))
                     (bcd_to_int (reg_byte date_reg 8))
                     (bcd_to_int (reg_byte time_reg 24))
                     (bcd_to_int (reg_byte time_reg 16))
                     (bcd_to_int (reg_byte time_reg 8)) /\
    (date_reg = pack_date 2025 8 8 -> time_reg = pack_time 14 30 5 ->
     c_string (current_datetime s') = "2025-08-08 14:30:05"%string).
Proof.
  intros Hlen Hsample Hy Hmo Hd Hh Hmi Hs.
  assert (Hlen1 : length (current_datetime s1) = 20%nat).
  { apply sample_Some in Hsample.
    destruct Hsample as (n & _ & _ & _ & _ & ->). exact Hlen. }
  unfold RTC_UpdateDateTime, bind. rewrite Hsample. cbn [get fst snd].
  eexists. split; [reflexivity |]. cbn [current_datetime snd].
  rewrite (format_datetime_cells _ _ _ Hlen1).
  assert (Hstr : c_string
      [ to_char (chr "2"); to_char (chr "0");
        to_char (Z.shiftr (reg_byte date_reg 24) 4 + chr "0");
        to_char (Z.land (reg_byte date_reg 24) 15 + chr "0");
        to_char (chr "-");
        to_char (Z.shiftr (reg_byte date_reg 16) 4 + chr "0");
        to_char (Z.land (reg_byte date_reg 16) 15 + chr "0");
        to_char (chr "-");
        to_char (Z.shiftr (reg_byte date_reg 8) 4 + chr "0");
        to_char (Z.land (reg_byte date_reg 8) 15 + chr "0");
        to_char (chr " ");
        to_char (Z.shiftr (reg_byte time_reg 24) 4 + chr "0");
        to_char (Z.land (reg_byte time_reg 24) 15 + chr "0");
        to_char (chr ":");
        to_char (Z.shiftr (reg_byte time_reg 16) 4 + chr "0");
        to_char (Z.land (reg_byte time_reg 16) 15 + chr "0");
        to_char (chr ":");
        to_char (Z.shiftr (reg_byte time_reg 8) 4 + chr "0");
        to_char (Z.land (reg_byte time_reg 8) 15 + chr "0");
        to_char 0 ]
    = spec_timestamp (bcd_to_int (reg_byte date_reg 24))
                     (bcd_to_int (reg_byte date_reg 16))
                     (bcd_to_int (reg_byte date_reg 8))
                     (bcd_to_int (reg_byte time_reg 24))
                     (bcd_to_int (reg_byte time_reg 16))
                     (bcd_to_int (reg_byte time_reg 8))).
  { unfold spec_timestamp. rewrite !two_digits_bcd by assumption.
    unfold valid_bcd in *. now apply c_string_digits. }
  split; [reflexivity |]. split; [reflexivity |].
  rewrite Hstr. split; [reflexivity |]. split; [reflexivity |].
  intros -> ->. vm_compute. reflexivity.
Qed.

Lemma RTC_UpdateDateTime_writes_timestamp_witness :
  exists s',
    RTC_UpdateDateTime 2 torn_once (initial_state 0) = Some (tt, s') /\
    c_string (current_datetime s') = "2025-08-08 14:30:05"%string.
Proof.
  destruct (RTC_UpdateDateTime_writes_timestamp 2 torn_once (initial_state 0)
              (advance 8 (initial_state 0))
              (pack_date 2025 8 8) (pack_time 14 30 5))
    as (s' & Hrun & _ & _ & _ & _ & Hstr);
    try reflexivity; try (vm_compute; intuition congruence).
  exists s'. split; [exact Hrun | apply Hstr; reflexivity].
Defined.

(** ** The classifier *)

Lemma i32_small x : -2147483648 <= x < 2147483648 -> i32 x = x.
Proof. intros Hx. unfold i32. rewrite Z.mod_small by lia. lia. Qed.

Lemma u16_small x : 0 <= x < 65536 -> u16 x = x.
Proof. intros Hx. unfold u16. now apply Z.mod_small. Qed.

(** [setpeakhours] stores the two sums; nothing wraps for [uint8_t]
    arguments. *)
Lemma setpeakhours_window start_hour start_min end_hour end_min s :
  is_u8 start_hour -> is_u8 start_min -> is_u8 end_hour -> is_u8 end_min ->
  setpeakhours start_hour start_min end_hour end_min s
  = Some (tt,
      {| current_datetime := current_datetime s; multiTariff := multiTariff s;
         peak_start_minutes := start_hour * 60 + start_min;
         peak_end_minutes := end_hour * 60 + end_min;
         uart1 := uart1 s; reads := reads s |}).
Proof.
  unfold is_u8. intros Hsh Hsm Heh Hem.
  unfold setpeakhours, set_peak_window.
  rewrite !(i32_small (_ * 60)) by lia.
  rewrite !i32_small by lia. rewrite !u16_small by lia. reflexivity.
Qed.

(** Minutes since midnight of a register image whose hour and minute
    bytes are the BCD encodings of [hour] and [minute]. *)
Lemma current_minutes_fields time_reg hour minute :
  0 <= hour <= 99 -> 0 <= minute <= 99 ->
  reg_byte time_reg 24 = int_to_bcd hour ->
  reg_byte time_reg 16 = int_to_bcd minute ->
  current_minutes time_reg = hour * 60 + minute.
Proof.
  intros Hh Hm Hbh Hbm. unfold current_minutes.
  rewrite Hbh, Hbm, !bcd_to_int_int_to_bcd by assumption.
  rewrite (i32_small (_ * 60)) by lia.
  rewrite i32_small by lia. apply u16_small. lia.
Qed.

Lemma classify_Peak s time_reg :
  classify s time_reg = Peak <->
  peak_start_minutes s <= current_minutes time_reg < peak_end_minutes s.
Proof.
  unfold classify, in_peak_window.
  destruct (Z.leb_spec (peak_start_minutes s) (current_minutes time_reg));
    destruct (Z.ltb_spec (current_minutes time_reg) (peak_end_minutes s));
    simpl; split; intros Hc; try discriminate; try reflexivity; lia.
Qed.

Lemma classify_OffPeak s time_reg :
  classify s time_reg = OffPeak <->
  ~ (peak_start_minutes s <= current_minutes time_reg < peak_end_minutes s).
Proof.
  rewrite <- classify_Peak.
  destruct (classify s time_reg); split; congruence.
Qed.

(** Once the sampler has returned, the rest of [checkPeakHours] runs to
    its end. *)
Lemma checkPeakHours_after_sample fuel hw s time_reg s1 :
  sample_time fuel hw s = Some (time_reg, s1) ->
  checkPeakHours fuel hw s
  = Some (tt, reported (classify s1 time_reg) s1).
Proof.
  intros H. unfold checkPeakHours, bind. rewrite H. cbn [get].
  unfold classify. destruct (in_peak_window s1 time_reg); reflexivity.
Qed.

Lemma checkPeakHours_None fuel hw s :
  checkPeakHours fuel hw s = None <-> sample_time fuel hw s = None.
Proof.
  destruct (sample_time fuel hw s) as [[t s1] |] eqn:H.
  - rewrite (checkPeakHours_after_sample _ _ _ _ _ H). split; discriminate.
  - unfold checkPeakHours, bind. rewrite H. split; reflexivity.
Qed.

Lemma classify_advance m s time_reg :
  classify (advance m s) time_reg = classify s time_reg.
Proof. reflexivity. Qed.

(** The whole call on a register source whose first agreeing TIME pass is
    pass [n]. *)
Lemma checkPeakHours_run hw s n fuel :
  first_agreement time_differ (time_pass hw) 2 (reads s) n ->
  (n < fuel)%nat ->
  checkPeakHours fuel hw s
  = Some (tt, reported (classify s (time_at hw (n * 2 + reads s)))
                       (advance (S n * 2) s)).
Proof.
  intros Hfirst Hfuel.
  rewrite (checkPeakHours_after_sample fuel hw s _ _
             (sample_time_exit hw n fuel s Hfirst Hfuel)).
  now rewrite classify_advance.
Qed.


(** ** What the classifier decides and does *)

(** C1, amended: for every window configured with [setpeakhours] and every
    sampled TIME image whose hour and minute bytes are the BCD of an hour in
    0..23 and a minute in 0..59, the tariff state is Peak if and only if
    [start <= hour*60+minute < end], and a call of [checkPeakHours] that
    samples this image sets the flag to 1 exactly then; a time at the end
    minute is OffPeak, and a time at the start minute is Peak when
    [start < end]. *)
Theorem classify_peak_iff_in_window
    (start_hour start_min end_hour end_min hour minute time_reg : Z) (s : state) :
  is_u8 start_hour -> is_u8 start_min -> is_u8 end_hour -> is_u8 end_min ->
  0 <= hour <= 23 -> 0 <= minute <= 59 ->
  reg_byte time_reg 24 = int_to_bcd hour ->
  reg_byte time_reg 16 = int_to_bcd minute ->
  exists s',
    setpeakhours start_hour start_min end_hour end_min s = Some (tt, s') /\
    let start := start_hour * 60 + start_min in
    let stop := end_hour * 60 + end_min in
    let minutes_now := hour * 60 + minute in
    (classify s' time_reg = Peak <-> start <= minutes_now < stop) /\
    (classify s' time_reg = OffPeak <-> ~ (start <= minutes_now < stop)) /\
    (start < stop -> minutes_now = start -> classify s' time_reg = Peak) /\
    (minutes_now = stop -> classify s' time_reg = OffPeak) /\
    (forall hw n fuel,
       first_agreement time_differ (time_pass hw) 2 (reads s') n ->
       (n < fuel)%nat ->
       time_at hw (n * 2 + reads s') = time_reg ->
       exists s'',
         checkPeakHours fuel hw s' = Some (tt, s'') /\
         (multiTariff s'' = 1 <-> start <= minutes_now < stop)).
Proof.
  intros Hsh Hsm Heh Hem Hh Hm Hbh Hbm.
  eexists. split; [now apply setpeakhours_window |]. cbv zeta.
  pose proof (current_minutes_fields time_reg hour minute
                ltac:(lia) ltac:(lia) Hbh Hbm) as Hnow.
  rewrite classify_OffPeak, classify_Peak. cbn [peak_start_minutes peak_end_minutes].
  rewrite Hnow.
  split; [reflexivity |]. split; [reflexivity |].
  split; [lia |]. split; [lia |].
  intros hw n fuel Hfirst Hfuel Hreg.
  rewrite (checkPeakHours_run hw _ n fuel Hfirst Hfuel), Hreg.
  eexists. split; [reflexivity |]. cbn [multiTariff reported].
  match goal with |- context [classify ?st time_reg] =>
    pose proof (classify_Peak st time_reg) as Hpk;
    destruct (classify st time_reg) end;
    cbn [peak_start_minutes peak_end_minutes] in Hpk; rewrite Hnow in Hpk;
    simpl tariff_flag.
  - split; [intros _; now apply Hpk | reflexivity].
  - split; [discriminate | intros Hin; apply Hpk in Hin; discriminate].
Qed.

Lemma classify_peak_iff_in_window_witness :
  exists s',
    setpeakhours 8 0 17 0 (initial_state 0) = Some (tt, s') /\
    classify s' (pack_time 9 15 0) = Peak /\
    classify s' (pack_time 7 59 0) = OffPeak /\
    classify s' (pack_time 8 0 0) = Peak /\
    classify s' (pack_time 17 0 0) = OffPeak.
Proof.
  destruct (classify_peak_iff_in_window 8 0 17 0 9 15 (pack_time 9 15 0)
              (initial_state 0))
    as (s' & Hset & Hpk & _); try (unfold is_u8; lia); try reflexivity.
  exists s'. split; [exact Hset |].
  split; [apply Hpk; lia |].
  injection Hset as <-. repeat split; reflexivity.
Defined.

(** The boundary sentence of C1 read for every window: with the window
    22:00-06:00 (start after end) the time 22:00 is exactly at the start
    minute, is classified OffPeak, and a call of [checkPeakHours] that reads
    it clears the flag and sends the off-peak line. *)
Lemma start_minute_offpeak_when_window_empty :
  match setpeakhours 22 0 6 0 (initial_state 0) with
  | Some (_, s') =>
      peak_start_minutes s' = 22 * 60 + 0 /\
      current_minutes (pack_time 22 0 0) = 22 * 60 + 0 /\
      classify s' (pack_time 22 0 0) = OffPeak /\
      classify s' (pack_time 22 0 0) <> Peak /\
      match checkPeakHours 1 (scripted [] {| RTCDATE := pack_date 2025 8 8;
                                             RTCTIME := pack_time 22 0 0 |}) s'
      with
      | Some (_, s'') => multiTariff s'' = 0 /\ uart1 s'' = [offpeak_line]
      | None => False
      end
  | None => False
  end.
Proof. vm_compute. repeat split; congruence. Qed.

(** C5: a call of [checkPeakHours] whose sampler gets agreeing reads
    returns, and every such call sends exactly one more line and writes the
    flag: when the tariff state is Peak the line is "(PEAK-HOUR)\n", which
    contains "PEAK-HOUR" and not "OFFPEAK-HOUR", and the flag is 1; when it is
    OffPeak the line is "(OFFPEAK-HOUR)\n", which contains "OFFPEAK-HOUR", and
    the flag is 0; so the flag is 1 if and only if the state is Peak, else 0.
    The call fails to return only while the reads keep disagreeing. *)
Theorem checkPeakHours_reports_tariff (hw : hardware) (s : state) (fuel : nat) :
  (forall n,
     first_agreement time_differ (time_pass hw) 2 (reads s) n ->
     (n < fuel)%nat ->
     exists s' line,
       checkPeakHours fuel hw s = Some (tt, s') /\
       uart1 s' = uart1 s ++ [line] /\
       let ts := classify s (time_at hw (n * 2 + reads s)) in
       (ts = Peak ->
        line = peak_line /\
        contains "PEAK-HOUR" line = true /\
        contains "OFFPEAK-HOUR" line = false /\ multiTariff s' = 1) /\
       (ts = OffPeak ->
        line = offpeak_line /\
        contains "OFFPEAK-HOUR" line = true /\ multiTariff s' = 0) /\
       (multiTariff s' = 1 <-> ts = Peak) /\
       (multiTariff s' = 0 <-> ts = OffPeak)) /\
  (checkPeakHours fuel hw s = None <->
   forall j, (j < fuel)%nat ->
             time_differ (time_pass hw (j * 2 + reads s)) = true).
Proof.
  split.
  - intros n Hfirst Hfuel.
    rewrite (checkPeakHours_run hw s n fuel Hfirst Hfuel).
    do 2 eexists. split; [reflexivity |]. split; [reflexivity |].
    cbv zeta. destruct (classify s _); simpl tariff_flag; simpl status_line.
    + repeat split; intros; try discriminate; reflexivity.
    + repeat split; intros; try discriminate; reflexivity.
  - rewrite checkPeakHours_None. apply sample_time_None.
Qed.

Lemma checkPeakHours_reports_tariff_witness :
  (exists s',
     checkPeakHours 1 torn_once
       {| current_datetime := repeat 0 20; multiTariff := 0;
          peak_start_minutes := 8 * 60 + 0; peak_end_minutes := 17 * 60 + 0;
          uart1 := []; reads := O |} = Some (tt, s') /\
     uart1 s' = [peak_line] /\ multiTariff s' = 1) /\
  (exists s',
     checkPeakHours 1 torn_once (initial_state 1) = Some (tt, s') /\
     uart1 s' = [offpeak_line] /\ multiTariff s' = 0).
Proof.
  split.
  - destruct (proj1 (checkPeakHours_reports_tariff torn_once
                       {| current_datetime := repeat 0 20; multiTariff := 0;
                          peak_start_minutes := 8 * 60 + 0;
                          peak_end_minutes := 17 * 60 + 0;
                          uart1 := []; reads := O |} 1) O)
      as (s' & line & Hrun & Hout & Hpk & _).
    + split; [intros j Hj; lia | reflexivity].
    + lia.
    + destruct (Hpk eq_refl) as (Hline & _ & _ & Hflag).
      exists s'. split; [exact Hrun |]. split; [| exact Hflag].
      rewrite Hout, Hline. reflexivity.
  - destruct (proj1 (checkPeakHours_reports_tariff torn_once (initial_state 1) 1) O)
      as (s' & line & Hrun & Hout & _ & Hoff & _).
    + split; [intros j Hj; lia | reflexivity].
    + lia.
    + destruct (Hoff eq_refl) as (Hline & _ & Hflag).
      exists s'. split; [exact Hrun |]. split; [| exact Hflag].
      rewrite Hout, Hline. reflexivity.
Defined.

(** C6: with a window whose start is not before its end, the default
    window 0..0 included, the tariff state is OffPeak for every TIME image,
    and every returning call of [checkPeakHours] reports off-peak. *)
Theorem empty_window_always_offpeak :
  (forall (s : state) (time_reg : Z),
     peak_start_minutes s >= peak_end_minutes s ->
     classify s time_reg = OffPeak) /\
  (forall (tariff time_reg : Z), classify (initial_state tariff) time_reg = OffPeak) /\
  (forall (hw : hardware) (s : state) (n fuel : nat),
     peak_start_minutes s >= peak_end_minutes s ->
     first_agreement time_differ (time_pass hw) 2 (reads s) n ->
     (n < fuel)%nat ->
     exists s',
       checkPeakHours fuel hw s = Some (tt, s') /\
       multiTariff s' = 0 /\ uart1 s' = uart1 s ++ [offpeak_line]).
Proof.
  assert (Hoff : forall s time_reg,
             peak_start_minutes s >= peak_end_minutes s ->
             classify s time_reg = OffPeak).
  { intros s time_reg Hw. apply classify_OffPeak. lia. }
  split; [exact Hoff |]. split.
  - intros tariff time_reg. apply Hoff. simpl. lia.
  - intros hw s n fuel Hw Hfirst Hfuel.
    rewrite (checkPeakHours_run hw s n fuel Hfirst Hfuel), Hoff by exact Hw.
    eexists. split; [reflexivity |]. split; reflexivity.
Qed.

Lemma empty_window_always_offpeak_witness :
  match setpeakhours 22 0 6 0 (initial_state 0) with
  | Some (_, s) => classify s (pack_time 23 30 0) = OffPeak
  | None => False
  end.
Proof.
  cbv beta iota delta [setpeakhours set_peak_window].
  apply (proj1 empty_window_always_offpeak). vm_compute. discriminate.
Defined.

(** C10: from every starting state, a returning call of [checkPeakHours]
    leaves [peak_start_minutes], [peak_end_minutes] and [current_datetime]
    as they were; it only writes the tariff flag, sends one line and
    performs register reads. *)
Theorem checkPeakHours_frame (hw : hardware) (s : state) (fuel : nat) :
  (forall n,
     first_agreement time_differ (time_pass hw) 2 (reads s) n ->
     (n < fuel)%nat ->
     exists flag line,
       checkPeakHours fuel hw s
       = Some (tt,
           {| current_datetime := current_datetime s; multiTariff := flag;
              peak_start_minutes := peak_start_minutes s;
              peak_end_minutes := peak_end_minutes s;
              uart1 := uart1 s ++ [line]; reads := (S n * 2 + reads s)%nat |})) /\
  (forall s',
     checkPeakHours fuel hw s = Some (tt, s') ->
     peak_start_minutes s' = peak_start_minutes s /\
     peak_end_minutes s' = peak_end_minutes s /\
     current_datetime s' = current_datetime s /\
     exists line, uart1 s' = uart1 s ++ [line]).
Proof.
  split.
  - intros n Hfirst Hfuel.
    rewrite (checkPeakHours_run hw s n fuel Hfirst Hfuel).
    do 2 eexists. reflexivity.
  - intros s' Hrun.
    destruct (sample_time fuel hw s) as [[t s1] |] eqn:Hs.
    + rewrite (checkPeakHours_after_sample _ _ _ _ _ Hs) in Hrun.
      injection Hrun as <-.
      apply sample_time_Some in Hs. destruct Hs as (n & _ & _ & _ & ->).
      repeat split. eexists. reflexivity.
    + apply checkPeakHours_None in Hs. congruence.
Qed.

Lemma checkPeakHours_frame_witness :
  exists flag line,
    checkPeakHours 1 torn_once (initial_state 5)
    = Some (tt,
        {| current_datetime := repeat 0 20; multiTariff := flag;
           peak_start_minutes := 0; peak_end_minutes := 0;
           uart1 := [line]; reads := 2%nat |}).
Proof.
  apply (proj1 (checkPeakHours_frame torn_once (initial_state 5) 1) O).
  - split; [intros j Hj; lia | reflexivity].
  - lia.
Defined.

(** ** Further properties of the codec *)

(** A test that holds on each of the 256 bytes holds on every byte. *)
Lemma forall_byte (P : Z -> bool) :
  forallb P (map Z.of_nat (seq 0 256)) = true ->
  forall b, 0 <= b < 256 -> P b = true.
Proof.
  intros Hall b Hb. rewrite forallb_forall in Hall. apply Hall.
  apply in_map_iff. exists (Z.to_nat b). split; [lia |].
  apply in_seq. lia.
Qed.

Lemma valid_bcdb_spec b : valid_bcdb b = true <-> valid_bcd b.
Proof.
  unfold valid_bcdb, valid_bcd.
  rewrite !andb_true_iff, !Z.leb_le. tauto.
Qed.

(** The nibbles of a byte, and what the decoding expression makes of them:
    nothing wraps in the [uint8_t] result. *)
Lemma byte_nibbles b :
  0 <= b < 256 ->
  0 <= Z.shiftr b 4 <= 15 /\ 0 <= Z.land b 15 <= 15 /\
  bcd_to_int b = Z.shiftr b 4 * 10 + Z.land b 15.
Proof.
  intros Hb.
  pose proof (forall_byte
    (fun b => (0 <=? Z.shiftr b 4) && (Z.shiftr b 4 <=? 15)
              && (0 <=? Z.land b 15) && (Z.land b 15 <=? 15)
              && (bcd_to_int b =? Z.shiftr b 4 * 10 + Z.land b 15))
    ltac:(vm_compute; reflexivity) b Hb) as H.
  cbv beta in H. rewrite !andb_true_iff, !Z.leb_le, Z.eqb_eq in H. lia.
Qed.

Lemma reg_byte_range reg n : 0 <= reg_byte reg n < 256.
Proof. apply u8_range. Qed.

(** X1: over the whole [uint8_t] range, decoding the byte [int_to_bcd]
    returns gives the value back exactly up to 159; from 160 on the tens
    digit overflows the high nibble and the decoded value is 160 less. *)
Theorem bcd_roundtrip_whole_range (v : Z) :
  is_u8 v ->
  (v <= 159 -> bcd_to_int (int_to_bcd v) = v) /\
  (160 <= v -> bcd_to_int (int_to_bcd v) = v - 160).
Proof.
  intros Hv.
  pose proof (forall_byte
    (fun v => if v <=? 159 then bcd_to_int (int_to_bcd v) =? v
              else bcd_to_int (int_to_bcd v) =? v - 160)
    ltac:(vm_compute; reflexivity) v Hv) as H.
  cbv beta in H. destruct (Z.leb_spec v 159); apply Z.eqb_eq in H; lia.
Qed.

Lemma bcd_roundtrip_whole_range_witness :
  bcd_to_int (int_to_bcd 123) = 123 /\ bcd_to_int (int_to_bcd 200) = 40.
Proof.
  split.
  - apply (bcd_roundtrip_whole_range 123); unfold is_u8; lia.
  - apply (bcd_roundtrip_whole_range 200); unfold is_u8; lia.
Defined.

(** X2: for a [uint8_t] value, the byte [int_to_bcd] returns has two
    decimal nibbles exactly when the value is at most 99 or at least 160;
    from 100 to 159 the high nibble is the tens count 10..15, and from 160
    on the byte is the encoding of the value minus 160. *)
Theorem int_to_bcd_valid_iff (v : Z) :
  is_u8 v ->
  (valid_bcd (int_to_bcd v) <-> v <= 99 \/ 160 <= v) /\
  (100 <= v <= 159 -> Z.shiftr (int_to_bcd v) 4 = v / 10) /\
  (160 <= v -> int_to_bcd v = int_to_bcd (v - 160)).
Proof.
  intros Hv.
  pose proof (forall_byte
    (fun v => Bool.eqb (valid_bcdb (int_to_bcd v)) ((v <=? 99) || (160 <=? v))
              && (if (100 <=? v) && (v <=? 159)
                  then Z.shiftr (int_to_bcd v) 4 =? v / 10 else true)
              && (if 160 <=? v then int_to_bcd v =? int_to_bcd (v - 160)
                  else true))
    ltac:(vm_compute; reflexivity) v Hv) as H.
  cbv beta in H. rewrite !andb_true_iff in H. destruct H as [[Hvalid Hmid] Hhigh].
  apply eqb_prop in Hvalid.
  split; [| split].
  - rewrite <- valid_bcdb_spec, Hvalid, orb_true_iff, !Z.leb_le. reflexivity.
  - intros Hr. destruct (Z.leb_spec 100 v); [| lia].
    destruct (Z.leb_spec v 159); [| lia]. now apply Z.eqb_eq in Hmid.
  - intros Hr. destruct (Z.leb_spec 160 v); [| lia]. now apply Z.eqb_eq in Hhigh.
Qed.

Lemma int_to_bcd_valid_iff_witness :
  ~ valid_bcd (int_to_bcd 100) /\ Z.shiftr (int_to_bcd 100) 4 = 10 /\
  int_to_bcd 165 = int_to_bcd 5.
Proof.
  destruct (int_to_bcd_valid_iff 100 ltac:(unfold is_u8; lia)) as (Hv & Hm & _).
  destruct (int_to_bcd_valid_iff 165 ltac:(unfold is_u8; lia)) as (_ & _ & Hh).
  split; [| split].
  - intros Hbad. apply Hv in Hbad. lia.
  - apply Hm. lia.
  - apply Hh. lia.
Defined.

(** The register image of three bytes, read back byte by byte. *)
Lemma reg_image_bytes a b c :
  is_u8 a -> is_u8 b -> is_u8 c ->
  let w := Z.lor (Z.lor (u32 (Z.shiftl (u32 a) 24)) (u32 (Z.shiftl (u32 b) 16)))
                 (u32 (Z.shiftl (u32 c) 8)) in
  0 <= w < 4294967296 /\
  reg_byte w 24 = a /\ reg_byte w 16 = b /\ reg_byte w 8 = c /\ reg_byte w 0 = 0.
Proof.
  intros Ha Hb Hc. cbv zeta. rewrite reg_image_sum by assumption.
  unfold is_u8 in *.
  split; [lia |].
  rewrite <- (Z.add_0_r (_ + _ + _)).
  destruct (reg_byte_fields a b c 0) as (H3 & H2 & H1);
    try (unfold is_u8; lia).
  rewrite H3, H2, H1. repeat split.
  unfold reg_byte. rewrite Z.shiftr_0_r. change 255 with (Z.ones 8).
  rewrite Z.land_ones by lia. unfold u8. change (2 ^ 8) with 256.
  rewrite Z.mod_mod by lia. Z.div_mod_to_equations. lia.
Qed.

(** X3: for all arguments of their parameter types ([uint8_t] fields, a
    [uint16_t] year), in the documented ranges or not, [pack_time] and
    [pack_date] return a 32-bit word whose bytes 3, 2 and 1 are the
    [int_to_bcd] bytes of the three fields (of [year % 100] for the year) and
    whose byte 0 is zero. *)
Theorem pack_layout (a b c year : Z) :
  is_u8 a -> is_u8 b -> is_u8 c -> is_u16 year ->
  (0 <= pack_time a b c < 4294967296 /\
   reg_byte (pack_time a b c) 24 = int_to_bcd a /\
   reg_byte (pack_time a b c) 16 = int_to_bcd b /\
   reg_byte (pack_time a b c) 8 = int_to_bcd c /\
   reg_byte (pack_time a b c) 0 = 0) /\
  (0 <= pack_date year b c < 4294967296 /\
   reg_byte (pack_date year b c) 24 = int_to_bcd (year mod 100) /\
   reg_byte (pack_date year b c) 16 = int_to_bcd b /\
   reg_byte (pack_date year b c) 8 = int_to_bcd c /\
   reg_byte (pack_date year b c) 0 = 0).
Proof.
  intros _ _ _ _. split.
  - apply reg_image_bytes; apply int_to_bcd_range.
  - unfold pack_date.
    replace (u8 (year mod 100)) with (year mod 100).
    + apply reg_image_bytes; apply int_to_bcd_range.
    + symmetry. apply u8_small.
      pose proof (Z.mod_pos_bound year 100 ltac:(lia)). lia.
Qed.

Lemma pack_layout_witness :
  reg_byte (pack_time 255 59 200) 24 = int_to_bcd 255 /\
  reg_byte (pack_time 255 59 200) 0 = 0 /\
  reg_byte (pack_date 65535 59 200) 24 = int_to_bcd (65535 mod 100) /\
  reg_byte (pack_date 65535 59 200) 0 = 0.
Proof.
  destruct (pack_layout 255 59 200 65535
              ltac:(unfold is_u8; lia) ltac:(unfold is_u8; lia)
              ltac:(unfold is_u8; lia) ltac:(unfold is_u16; lia))
    as ((_ & Ht3 & _ & _ & Ht0) & (_ & Hd3 & _ & _ & Hd0)).
  repeat split; assumption.
Defined.

(** The fields of a date image. *)
Lemma unpack_fields_pack_date year month day :
  0 <= month <= 99 -> 0 <= day <= 99 ->
  unpack_fields (pack_date year month day) = (year mod 100, month, day).
Proof.
  intros Hm Hd. unfold pack_date.
  pose proof (Z.mod_pos_bound year 100 ltac:(lia)) as Hy.
  rewrite (u8_small (year mod 100)) by lia.
  apply unpack_fields_image; lia.
Qed.

(** X4: for months in 1..12 and days in 1..31, two calls of [pack_date]
    return the same word exactly when month and day are the same and the
    years have the same last two digits: the century is not stored, so 1925,
    2025 and 2125 give one image. *)
Theorem pack_date_eq_iff (year month day year' month' day' : Z) :
  is_u16 year -> is_u16 year' ->
  1 <= month <= 12 -> 1 <= day <= 31 -> 1 <= month' <= 12 -> 1 <= day' <= 31 ->
  (pack_date year month day = pack_date year' month' day' <->
   year mod 100 = year' mod 100 /\ month = month' /\ day = day').
Proof.
  intros _ _ Hm Hd Hm' Hd'. split.
  - intros Heq. apply (f_equal unpack_fields) in Heq.
    rewrite !unpack_fields_pack_date in Heq by lia.
    injection Heq as Hy -> ->. auto.
  - intros (Hy & -> & ->). unfold pack_date. now rewrite Hy.
Qed.

Lemma pack_date_eq_iff_witness :
  pack_date 1925 8 8 = pack_date 2025 8 8 /\
  pack_date 2025 8 8 <> pack_date 2025 8 9.
Proof.
  split.
  - apply (pack_date_eq_iff 1925 8 8 2025 8 8);
      try (unfold is_u16; lia). repeat split.
  - intros Heq.
    apply (pack_date_eq_iff 2025 8 8 2025 8 9) in Heq;
      try (unfold is_u16; lia).
Defined.

(** X5: on hours 0..23 and minutes and seconds 0..59, [pack_time] is
    injective: different times of day never share a register image. *)
Theorem pack_time_injective (hour minute second hour' minute' second' : Z) :
  0 <= hour <= 23 -> 0 <= minute <= 59 -> 0 <= second <= 59 ->
  0 <= hour' <= 23 -> 0 <= minute' <= 59 -> 0 <= second' <= 59 ->
  pack_time hour minute second = pack_time hour' minute' second' ->
  hour = hour' /\ minute = minute' /\ second = second'.
Proof.
  intros Hh Hm Hs Hh' Hm' Hs' Heq.
  apply (f_equal unpack_fields) in Heq. unfold pack_time in Heq.
  rewrite !unpack_fields_image in Heq by lia.
  injection Heq as -> -> ->. auto.
Qed.

Lemma pack_time_injective_witness :
  pack_time 14 30 5 <> pack_time 14 30 6.
Proof.
  intros Heq.
  apply (pack_time_injective 14 30 5 14 30 6) in Heq; lia.
Defined.

(** X6: for every content of the TIME register, also one that is not BCD,
    the minutes since midnight computed by [checkPeakHours] are
    [(h1*10 + h0) * 60 + (m1*10 + m0)] for the nibbles [h1 h0] of byte 3 and
    [m1 m0] of byte 2; no [uint8_t] or [uint16_t] wraps, and the result is
    at most 165*60 + 165 = 10065. *)
Theorem current_minutes_no_wrap (time_reg : Z) :
  let hour_bcd := reg_byte time_reg 24 in
  let min_bcd := reg_byte time_reg 16 in
  current_minutes time_reg
  = (Z.shiftr hour_bcd 4 * 10 + Z.land hour_bcd 15) * 60
    + (Z.shiftr min_bcd 4 * 10 + Z.land min_bcd 15) /\
  0 <= current_minutes time_reg <= 10065.
Proof.
  cbv zeta. unfold current_minutes.
  destruct (byte_nibbles (reg_byte time_reg 24) (reg_byte_range _ _))
    as (Hh1 & Hh0 & ->).
  destruct (byte_nibbles (reg_byte time_reg 16) (reg_byte_range _ _))
    as (Hm1 & Hm0 & ->).
  rewrite (i32_small (_ * 60)) by lia.
  rewrite i32_small by lia. rewrite u16_small by lia. lia.
Qed.

(** ** Further properties of the formatter *)

(** Twelve nibbles laid out by the stores read back as nineteen
    characters, whether or not they are decimal digits. *)
Lemma c_string_nibbles y1 y0 m1 m0 d1 d0 h1 h0 i1 i0 s1 s0 :
  0 <= y1 <= 15 -> 0 <= y0 <= 15 -> 0 <= m1 <= 15 -> 0 <= m0 <= 15 ->
  0 <= d1 <= 15 -> 0 <= d0 <= 15 -> 0 <= h1 <= 15 -> 0 <= h0 <= 15 ->
  0 <= i1 <= 15 -> 0 <= i0 <= 15 -> 0 <= s1 <= 15 -> 0 <= s0 <= 15 ->
  c_string
    [ to_char (chr "2"); to_char (chr "0");
      to_char (y1 + chr "0"); to_char (y0 + chr "0"); to_char (chr "-");
      to_char (m1 + chr "0"); to_char (m0 + chr "0"); to_char (chr "-");
      to_char (d1 + chr "0"); to_char (d0 + chr "0"); to_char (chr " ");
      to_char (h1 + chr "0"); to_char (h0 + chr "0"); to_char (chr ":");
      to_char (i1 + chr "0"); to_char (i0 + chr "0"); to_char (chr ":");
      to_char (s1 + chr "0"); to_char (s0 + chr "0"); to_char 0 ]
  = String "2" (String "0"
      (String (digit_char y1) (String (digit_char y0) (String "-"
      (String (digit_char m1) (String (digit_char m0) (String "-"
      (String (digit_char d1) (String (digit_char d0) (String " "
      (String (digit_char h1) (String (digit_char h0) (String ":"
      (String (digit_char i1) (String (digit_char i0) (String ":"
      (String (digit_char s1) (String (digit_char s0)
         EmptyString)))))))))))))))))).
Proof.
  intros. change (chr "0") with 48.
  rewrite !c_string_cons_pos by (try lia; vm_compute; split; reflexivity).
  reflexivity.
Qed.

(** A nibble stored as a character lies between ['0'] and ['?']. *)
Lemma nibble_char x : 0 <= x <= 15 -> 48 <= to_char (x + chr "0") <= 63.
Proof.
  intros Hx. change (chr "0") with 48. rewrite to_char_small by lia. lia.
Qed.

(** What [RTC_UpdateDateTime] leaves once its sampler has returned. *)
Lemma RTC_UpdateDateTime_after_sample fuel hw s date_reg time_reg s1 :
  sample fuel hw s = Some ((date_reg, time_reg), s1) ->
  RTC_UpdateDateTime fuel hw s
  = Some (tt,
      {| current_datetime :=
           format_datetime date_reg time_reg (current_datetime s1);
         multiTariff := multiTariff s1;
         peak_start_minutes := peak_start_minutes s1;
         peak_end_minutes := peak_end_minutes s1;
         uart1 := uart1 s1; reads := reads s1 |}).
Proof.
  intros H. unfold RTC_UpdateDateTime, bind. rewrite H. reflexivity.
Qed.

Lemma RTC_UpdateDateTime_None fuel hw s :
  RTC_UpdateDateTime fuel hw s = None <-> sample fuel hw s = None.
Proof.
  destruct (sample fuel hw s) as [[[d t] s1] |] eqn:H.
  - rewrite (RTC_UpdateDateTime_after_sample _ _ _ _ _ _ H). split; discriminate.
  - unfold RTC_UpdateDateTime, bind. rewrite H. split; reflexivity.
Qed.

(** The string of a formatted buffer when the six field bytes are BCD. *)
Lemma c_string_format_datetime date_reg time_reg (buf : list Z) :
  length buf = 20%nat ->
  valid_bcd (reg_byte date_reg 24) -> valid_bcd (reg_byte date_reg 16) ->
  valid_bcd (reg_byte date_reg 8) ->
  valid_bcd (reg_byte time_reg 24) -> valid_bcd (reg_byte time_reg 16) ->
  valid_bcd (reg_byte time_reg 8) ->
  c_string (format_datetime date_reg time_reg buf)
  = spec_timestamp (bcd_to_int (reg_byte date_reg 24))
                   (bcd_to_int (reg_byte date_reg 16))
                   (bcd_to_int (reg_byte date_reg 8))
                   (bcd_to_int (reg_byte time_reg 24))
                   (bcd_to_int (reg_byte time_reg 16))
                   (bcd_to_int (reg_byte time_reg 8)).
Proof.
  intros Hlen Hy Hmo Hd Hh Hmi Hs.
  rewrite (format_datetime_cells _ _ _ Hlen).
  unfold spec_timestamp. rewrite !two_digits_bcd by assumption.
  unfold valid_bcd in *. now apply c_string_digits.
Qed.

(** X7: whatever the sampled registers hold, BCD or not,
    [RTC_UpdateDateTime] leaves a buffer of twenty cells that ends with a
    NUL and reads as a string of exactly 19 characters: "20" first, the
    separators at their fixed places, and every other character between
    ['0'] and ['?']. *)
Theorem RTC_UpdateDateTime_always_19_chars
    (fuel : nat) (hw : hardware) (s s1 : state) (date_reg time_reg : Z) :
  length (current_datetime s) = 20%nat ->
  sample fuel hw s = Some ((date_reg, time_reg), s1) ->
  exists s',
    RTC_UpdateDateTime fuel hw s = Some (tt, s') /\
    datetime_terminated s' /\
    String.length (c_string (current_datetime s')) = 19%nat /\
    Forall (fun c => 32 <= c <= 63) (take 19 (current_datetime s')) /\
    current_datetime s' !! 0%nat = Some (chr "2") /\
    current_datetime s' !! 1%nat = Some (chr "0") /\
    current_datetime s' !! 4%nat = Some (chr "-") /\
    current_datetime s' !! 7%nat = Some (chr "-") /\
    current_datetime s' !! 10%nat = Some (chr " ") /\
    current_datetime s' !! 13%nat = Some (chr ":") /\
    current_datetime s' !! 16%nat = Some (chr ":").
Proof.
  intros Hlen Hsample.
  assert (Hlen1 : length (current_datetime s1) = 20%nat).
  { apply sample_Some in Hsample.
    destruct Hsample as (n & _ & _ & _ & _ & ->). exact Hlen. }
  rewrite (RTC_UpdateDateTime_after_sample _ _ _ _ _ _ Hsample).
  eexists. split; [reflexivity |]. unfold datetime_terminated.
  cbn [current_datetime]. rewrite (format_datetime_cells _ _ _ Hlen1).
  destruct (byte_nibbles _ (reg_byte_range date_reg 24)) as (Hy1 & Hy0 & _).
  destruct (byte_nibbles _ (reg_byte_range date_reg 16)) as (Hm1 & Hm0 & _).
  destruct (byte_nibbles _ (reg_byte_range date_reg 8)) as (Hd1 & Hd0 & _).
  destruct (byte_nibbles _ (reg_byte_range time_reg 24)) as (Hh1 & Hh0 & _).
  destruct (byte_nibbles _ (reg_byte_range time_reg 16)) as (Hi1 & Hi0 & _).
  destruct (byte_nibbles _ (reg_byte_range time_reg 8)) as (Hs1 & Hs0 & _).
  split; [split; reflexivity |].
  split; [rewrite c_string_nibbles by assumption; reflexivity |].
  split; [| repeat split; reflexivity].
  cbn [take].
  repeat (constructor;
          [lazymatch goal with
           | |- _ <= to_char (?x + chr "0") <= _ =>
               pose proof (nibble_char x ltac:(assumption)); lia
           | |- _ => vm_compute; split; discriminate
           end |]).
  constructor.
Qed.

Lemma RTC_UpdateDateTime_always_19_chars_witness :
  exists s',
    RTC_UpdateDateTime 1 (steady {| RTCDATE := 0xFFFFFFFF; RTCTIME := 0xABCDEF00 |})
      (initial_state 0) = Some (tt, s') /\
    String.length (c_string (current_datetime s')) = 19%nat.
Proof.
  destruct (RTC_UpdateDateTime_always_19_chars 1
              (steady {| RTCDATE := 0xFFFFFFFF; RTCTIME := 0xABCDEF00 |})
              (initial_state 0) (advance 4 (initial_state 0))
              0xFFFFFFFF 0xABCDEF00)
    as (s' & Hrun & _ & Hlen & _); try reflexivity.
  exists s'. split; [exact Hrun | exact Hlen].
Defined.

(** The samplers on a register source that never changes. *)
Lemma sample_steady r fuel s :
  (1 <= fuel)%nat ->
  sample fuel (steady r) s
  = Some ((u32 (RTCDATE r), u32 (RTCTIME r)), advance 4 s).
Proof.
  intros Hfuel. rewrite (sample_exit (steady r) 0 fuel s); [reflexivity | | lia].
  split; [intros j Hj; lia |].
  unfold date_time_differ, date_time_pass, date_at, time_at, steady.
  now rewrite !Z.eqb_refl.
Qed.

Lemma sample_time_steady r fuel s :
  (1 <= fuel)%nat ->
  sample_time fuel (steady r) s = Some (u32 (RTCTIME r), advance 2 s).
Proof.
  intros Hfuel.
  rewrite (sample_time_exit (steady r) 0 fuel s); [reflexivity | | lia].
  split; [intros j Hj; lia |].
  unfold time_differ, time_pass, time_at, steady. cbn [fst snd].
  now rewrite Z.eqb_refl.
Qed.

(** X8: a returning call of [RTC_UpdateDateTime] leaves the tariff flag,
    the peak window and the UART transcript as they were, and the buffer it
    leaves does not depend on what the buffer held before: it is overwritten
    whole. *)
Theorem RTC_UpdateDateTime_frame
    (fuel : nat) (hw : hardware) (s s' : state) :
  RTC_UpdateDateTime fuel hw s = Some (tt, s') ->
  multiTariff s' = multiTariff s /\
  peak_start_minutes s' = peak_start_minutes s /\
  peak_end_minutes s' = peak_end_minutes s /\
  uart1 s' = uart1 s /\
  (forall s2,
     reads s2 = reads s ->
     length (current_datetime s) = 20%nat ->
     length (current_datetime s2) = 20%nat ->
     exists s2',
       RTC_UpdateDateTime fuel hw s2 = Some (tt, s2') /\
       current_datetime s2' = current_datetime s').
Proof.
  intros Hrun.
  destruct (sample fuel hw s) as [[[d t] s1] |] eqn:Hs;
    [| apply RTC_UpdateDateTime_None in Hs; congruence].
  rewrite (RTC_UpdateDateTime_after_sample _ _ _ _ _ _ Hs) in Hrun.
  injection Hrun as <-.
  apply sample_Some in Hs.
  destruct Hs as (n & Hn & Hfirst & -> & -> & ->).
  repeat split.
  intros s2 Hreads Hlen Hlen2.
  rewrite <- Hreads in Hfirst.
  rewrite (RTC_UpdateDateTime_after_sample _ _ _ _ _ _
             (sample_exit hw n fuel s2 Hfirst Hn)).
  eexists. split; [reflexivity |]. cbn [current_datetime advance].
  rewrite Hreads.
  now rewrite !format_datetime_cells by assumption.
Qed.

Lemma RTC_UpdateDateTime_frame_witness :
  exists s',
    RTC_UpdateDateTime 2 torn_once (initial_state 7) = Some (tt, s') /\
    multiTariff s' = 7 /\ uart1 s' = [].
Proof.
  eexists. split; [reflexivity |].
  destruct (RTC_UpdateDateTime_frame 2 torn_once (initial_state 7) _ eq_refl)
    as (Hflag & _ & _ & Huart & _).
  split; [exact Hflag | exact Huart].
Defined.

(** When the registers hold the words [pack_date] and [pack_time] build
    for in-range fields, [RTC_UpdateDateTime] leaves the string of these
    fields. *)
Lemma update_steady_packed
    (year month day hour minute second : Z) (s : state) (fuel : nat) :
  is_u16 year -> 1 <= month <= 12 -> 1 <= day <= 31 ->
  0 <= hour <= 23 -> 0 <= minute <= 59 -> 0 <= second <= 59 ->
  length (current_datetime s) = 20%nat -> (1 <= fuel)%nat ->
  exists s',
    RTC_UpdateDateTime fuel
      (steady {| RTCDATE := pack_date year month day;
                 RTCTIME := pack_time hour minute second |}) s
    = Some (tt, s') /\
    c_string (current_datetime s')
    = spec_timestamp (year mod 100) month day hour minute second.
Proof.
  intros _ Hmo Hd Hh Hmi Hs Hlen Hfuel.
  pose proof (Z.mod_pos_bound year 100 ltac:(lia)) as Hy.
  rewrite (RTC_UpdateDateTime_after_sample _ _ _ _ _ _
             (sample_steady _ fuel s Hfuel)).
  eexists. split; [reflexivity |]. cbn [current_datetime advance RTCDATE RTCTIME].
  assert (Hdate : pack_date year month day
                  = Z.lor (Z.lor (u32 (Z.shiftl (u32 (int_to_bcd (year mod 100))) 24))
                                 (u32 (Z.shiftl (u32 (int_to_bcd month)) 16)))
                          (u32 (Z.shiftl (u32 (int_to_bcd day)) 8))).
  { unfold pack_date. now rewrite (u8_small (year mod 100)) by lia. }
  destruct (reg_image_bytes (int_to_bcd (year mod 100)) (int_to_bcd month)
              (int_to_bcd day)) as (Hrd & Hd3 & Hd2 & Hd1 & _);
    try apply int_to_bcd_range.
  destruct (reg_image_bytes (int_to_bcd hour) (int_to_bcd minute)
              (int_to_bcd second)) as (Hrt & Ht3 & Ht2 & Ht1 & _);
    try apply int_to_bcd_range.
  cbv zeta in *. rewrite <- Hdate in *. fold (pack_time hour minute second) in *.
  rewrite (u32_small (pack_date _ _ _)), (u32_small (pack_time _ _ _)) by assumption.
  rewrite c_string_format_datetime;
    rewrite ?Hd3, ?Hd2, ?Hd1, ?Ht3, ?Ht2, ?Ht1;
    try (apply int_to_bcd_valid; lia); try assumption.
  now rewrite !bcd_to_int_int_to_bcd by lia.
Qed.

(** ** The datetime buffer and its display *)

(** A C string ends at the latest at the first known NUL. *)
Lemma c_string_length_le (buf : list Z) :
  forall i, buf !! i = Some 0 -> (String.length (c_string buf) <= i)%nat.
Proof.
  induction buf as [| c rest IH]; intros i Hi; [discriminate |].
  simpl c_string. destruct (Z.eqb_spec c 0) as [-> | Hc]; [simpl; lia |].
  destruct i as [| i]; [simpl in Hi; congruence |].
  simpl in *. specialize (IH i Hi). lia.
Qed.

Lemma display_current_time_run s :
  display_current_time s
  = Some (tt,
      {| current_datetime := current_datetime s; multiTariff := multiTariff s;
         peak_start_minutes := peak_start_minutes s;
         peak_end_minutes := peak_end_minutes s;
         uart1 := uart1 s ++ [current_time_label;
                              c_string (current_datetime s); newline];
         reads := reads s |}).
Proof.
  unfold display_current_time, bind, writeStringUart1, get.
  cbn [current_datetime multiTariff peak_start_minutes peak_end_minutes
       uart1 reads].
  now rewrite <- !app_assoc.
Qed.

(** X10: the datetime buffer has twenty cells and a NUL in the last one
    at program start, and every operation that returns keeps it so; hence
    the string [display_current_time] sends never runs past the buffer: it
    has at most 19 characters. *)
Theorem datetime_terminated_invariant :
  (forall tariff, datetime_terminated (initial_state tariff)) /\
  (forall s, datetime_terminated s ->
     (String.length (c_string (current_datetime s)) <= 19)%nat /\
     (forall a b c d s',
        setpeakhours a b c d s = Some (tt, s') -> datetime_terminated s') /\
     (forall fuel hw s',
        checkPeakHours fuel hw s = Some (tt, s') -> datetime_terminated s') /\
     (forall fuel hw s',
        RTC_UpdateDateTime fuel hw s = Some (tt, s') -> datetime_terminated s') /\
     (forall s',
        display_current_time s = Some (tt, s') -> datetime_terminated s')).
Proof.
  split; [intros tariff; split; reflexivity |].
  intros s [Hlen Hnul]. split; [now apply c_string_length_le |].
  split; [| split; [| split]].
  - intros a b c d s' H. injection H as <-. split; assumption.
  - intros fuel hw s' H.
    destruct (sample_time fuel hw s) as [[t s1] |] eqn:Hs;
      [| apply checkPeakHours_None in Hs; congruence].
    rewrite (checkPeakHours_after_sample _ _ _ _ _ Hs) in H. injection H as <-.
    apply sample_time_Some in Hs. destruct Hs as (n & _ & _ & _ & ->).
    split; assumption.
  - intros fuel hw s' H.
    destruct (sample fuel hw s) as [[[d t] s1] |] eqn:Hs;
      [| apply RTC_UpdateDateTime_None in Hs; congruence].
    rewrite (RTC_UpdateDateTime_after_sample _ _ _ _ _ _ Hs) in H.
    injection H as <-.
    apply sample_Some in Hs. destruct Hs as (n & _ & _ & _ & _ & ->).
    unfold datetime_terminated. cbn [current_datetime advance].
    rewrite (format_datetime_cells _ _ _ Hlen). split; reflexivity.
  - intros s' H. rewrite display_current_time_run in H. injection H as <-.
    split; assumption.
Qed.

Lemma datetime_terminated_invariant_witness :
  (String.length (c_string (current_datetime (initial_state 0))) <= 19)%nat.
Proof.
  apply (proj2 datetime_terminated_invariant (initial_state 0)).
  apply (proj1 datetime_terminated_invariant 0).
Defined.



(** ** Further properties of the classifier *)

(** X12: for all [uint8_t] arguments, in range or not, [setpeakhours]
    stores exactly [start_hour*60 + start_min] and [end_hour*60 + end_min]
    (at most 15555, nothing wraps) and changes nothing else; a second call
    replaces the window of the first. *)
Theorem setpeakhours_stores_window
    (start_hour start_min end_hour end_min : Z) (s : state) :
  is_u8 start_hour -> is_u8 start_min -> is_u8 end_hour -> is_u8 end_min ->
  (exists s',
     setpeakhours start_hour start_min end_hour end_min s = Some (tt, s') /\
     peak_start_minutes s' = start_hour * 60 + start_min /\
     peak_end_minutes s' = end_hour * 60 + end_min /\
     0 <= peak_start_minutes s' <= 15555 /\
     0 <= peak_end_minutes s' <= 15555 /\
     current_datetime s' = current_datetime s /\
     multiTariff s' = multiTariff s /\
     uart1 s' = uart1 s /\ reads s' = reads s) /\
  (forall a b c d,
     is_u8 a -> is_u8 b -> is_u8 c -> is_u8 d ->
     seq_call (setpeakhours a b c d)
              (setpeakhours start_hour start_min end_hour end_min) s
     = setpeakhours start_hour start_min end_hour end_min s).
Proof.
  intros Hsh Hsm Heh Hem. split.
  - rewrite setpeakhours_window by assumption.
    eexists. split; [reflexivity |]. unfold is_u8 in *.
    cbn [peak_start_minutes peak_end_minutes current_datetime multiTariff
         uart1 reads].
    repeat split; lia.
  - intros a b c d Ha Hb Hc Hd. unfold seq_call, bind.
    rewrite (setpeakhours_window a b c d) by assumption.
    now rewrite !setpeakhours_window by assumption.
Qed.

Lemma setpeakhours_stores_window_witness :
  exists s',
    setpeakhours 255 255 0 0 (initial_state 0) = Some (tt, s') /\
    peak_start_minutes s' = 15555 /\ peak_end_minutes s' = 0.
Proof.
  destruct (proj1 (setpeakhours_stores_window 255 255 0 0 (initial_state 0)
                     ltac:(unfold is_u8; lia) ltac:(unfold is_u8; lia)
                     ltac:(unfold is_u8; lia) ltac:(unfold is_u8; lia)))
    as (s' & Hrun & Hstart & Hend & _).
  exists s'. split; [exact Hrun |]. split; [exact Hstart | exact Hend].
Defined.

(** The loop only sees its body through what the body returns. *)
Lemma do_while_ext {A} (body body' : M A) (again : A -> bool) :
  (forall s, body s = body' s) ->
  forall fuel s, do_while fuel body again s = do_while fuel body' again s.
Proof.
  intros Hbody fuel. induction fuel as [| fuel IH]; intros s; simpl;
    [reflexivity |].
  rewrite Hbody. destruct (body' s) as [[a s'] |]; [| reflexivity].
  destruct (again a); [apply IH | reflexivity].
Qed.

(** Minutes since midnight of an image built by [pack_time]. *)
Lemma current_minutes_pack_time hour minute second :
  current_minutes (pack_time hour minute second)
  = u16 (i32 (i32 (bcd_to_int (int_to_bcd hour) * 60)
              + bcd_to_int (int_to_bcd minute))).
Proof.
  unfold current_minutes.
  destruct (reg_image_bytes (int_to_bcd hour) (int_to_bcd minute)
              (int_to_bcd second)) as (_ & H3 & H2 & _);
    try apply int_to_bcd_range.
  cbv zeta in H3, H2. fold (pack_time hour minute second) in H3, H2.
  now rewrite H3, H2.
Qed.

(** X13: the classifier looks at the hour and minute only: two TIME
    images built by [pack_time] that differ in the seconds get the same
    tariff state, and [checkPeakHours] behaves the same on two register
    sources that agree on RTCTIME, whatever RTCDATE holds. *)
Theorem checkPeakHours_ignores_seconds_and_date :
  (forall (s : state) (hour minute second second' : Z),
     classify s (pack_time hour minute second)
     = classify s (pack_time hour minute second')) /\
  (forall (fuel : nat) (hw hw' : hardware) (s : state),
     (forall k, RTCTIME (hw k) = RTCTIME (hw' k)) ->
     checkPeakHours fuel hw s = checkPeakHours fuel hw' s).
Proof.
  split.
  - intros s hour minute second second'. unfold classify, in_peak_window.
    now rewrite !current_minutes_pack_time.
  - intros fuel hw hw' s Hsame.
    unfold checkPeakHours, sample_time, bind.
    rewrite (do_while_ext (read_time_twice hw) (read_time_twice hw'));
      [reflexivity |].
    intros s0. unfold read_time_twice, bind, read_RTCTIME.
    now rewrite !Hsame.
Qed.

Lemma checkPeakHours_ignores_seconds_and_date_witness :
  checkPeakHours 1 (steady {| RTCDATE := pack_date 2025 8 8;
                              RTCTIME := pack_time 9 15 0 |}) (initial_state 0)
  = checkPeakHours 1 (steady {| RTCDATE := 0; RTCTIME := pack_time 9 15 0 |})
      (initial_state 0).
Proof.
  apply (proj2 checkPeakHours_ignores_seconds_and_date). reflexivity.
Defined.

(** X14: with arguments in the documented ranges (hours 0..23, minutes
    0..59) the window ends at 23:59 at the latest and excludes its end, so
    the last minute of the day, 23:59, is OffPeak under every such
    configuration. *)
Theorem last_minute_never_peak
    (start_hour start_min end_hour end_min second : Z) (s : state) :
  0 <= start_hour <= 23 -> 0 <= start_min <= 59 ->
  0 <= end_hour <= 23 -> 0 <= end_min <= 59 ->
  exists s',
    setpeakhours start_hour start_min end_hour end_min s = Some (tt, s') /\
    classify s' (pack_time 23 59 second) = OffPeak.
Proof.
  intros Hsh Hsm Heh Hem.
  rewrite setpeakhours_window by (unfold is_u8; lia).
  eexists. split; [reflexivity |].
  apply classify_OffPeak. cbn [peak_start_minutes peak_end_minutes].
  rewrite current_minutes_pack_time.
  rewrite !bcd_to_int_int_to_bcd by lia.
  change (u16 (i32 (i32 (23 * 60) + 59))) with 1439. lia.
Qed.

Lemma last_minute_never_peak_witness :
  exists s',
    setpeakhours 0 0 23 59 (initial_state 0) = Some (tt, s') /\
    classify s' (pack_time 23 59 0) = OffPeak.
Proof. apply (last_minute_never_peak 0 0 23 59 0 (initial_state 0)); lia. Defined.

(** ** Calls in sequence *)



(** X16: [checkPeakHours] reports on every call, not on a change: called
    twice while the TIME register holds the same value, it sends the same
    status line twice and leaves the flag it had set the first time. *)
Theorem checkPeakHours_twice (r : rtcc) (s : state) (fuel fuel' : nat) :
  (1 <= fuel)%nat -> (1 <= fuel')%nat ->
  exists s',
    seq_call (checkPeakHours fuel (steady r)) (checkPeakHours fuel' (steady r)) s
    = Some (tt, s') /\
    multiTariff s' = tariff_flag (classify s (u32 (RTCTIME r))) /\
    uart1 s' = uart1 s ++ [status_line (classify s (u32 (RTCTIME r)));
                           status_line (classify s (u32 (RTCTIME r)))] /\
    reads s' = (4 + reads s)%nat.
Proof.
  intros Hfuel Hfuel'. unfold seq_call, bind.
  rewrite (checkPeakHours_after_sample _ _ _ _ _
             (sample_time_steady r fuel s Hfuel)).
  rewrite (checkPeakHours_after_sample _ _ _ _ _
             (sample_time_steady r fuel' _ Hfuel')).
  eexists. split; [reflexivity |].
  cbn [multiTariff uart1 reads reported advance].
  rewrite <- app_assoc. repeat split.
Qed.

Lemma checkPeakHours_twice_witness :
  exists s',
    seq_call (checkPeakHours 1 (steady {| RTCDATE := 0; RTCTIME := pack_time 9 0 0 |}))
             (checkPeakHours 1 (steady {| RTCDATE := 0; RTCTIME := pack_time 9 0 0 |}))
             (initial_state 0) = Some (tt, s') /\
    uart1 s' = [offpeak_line; offpeak_line].
Proof.
  destruct (checkPeakHours_twice {| RTCDATE := 0; RTCTIME := pack_time 9 0 0 |}
              (initial_state 0) 1 1 ltac:(lia) ltac:(lia))
    as (s' & Hrun & _ & Hout & _).
  exists s'. split; [exact Hrun | exact Hout].
Defined.

(** ** Clock initialisation *)

Section Wait.

Variable rtccon : nat -> Z.

Lemma wait_clock_running_None fuel :
  forall k,
    wait_clock_running fuel rtccon k = None <->
    (forall j, (j < fuel)%nat -> Z.land (u32 (rtccon (j + k))) 0x40 = 0).
Proof.
  induction fuel as [| fuel IH]; intros k; simpl.
  - split; [intros _ j Hj; lia | reflexivity].
  - destruct (Z.eqb_spec (Z.land (u32 (rtccon k)) 64) 0) as [Hclear | Hset].
    + destruct (wait_clock_running fuel rtccon (S k)) eqn:Hrest.
      * split; [discriminate |]. intros Hall.
        assert (Hnone : wait_clock_running fuel rtccon (S k) = None).
        { apply IH. intros j Hj.
          replace (j + S k)%nat with (S j + k)%nat by lia. apply Hall. lia. }
        congruence.
      * split; [| reflexivity]. intros _ [| j] Hj; [exact Hclear |].
        replace (S j + k)%nat with (j + S k)%nat by lia.
        apply (proj1 (IH (S k)) Hrest). lia.
    + split; [discriminate |]. intros Hall.
      specialize (Hall O ltac:(lia)). simpl in Hall. contradiction.
Qed.

(** The wait performs loads of [RTCCON] only, as many as it takes. *)
Lemma wait_clock_running_Some fuel :
  forall k loads,
    wait_clock_running fuel rtccon k = Some loads ->
    (forall r, stores_to r loads = []) /\
    exists n, (n < fuel)%nat /\ loads_in loads = S n /\
      (forall j, (j < n)%nat -> Z.land (u32 (rtccon (j + k))) 0x40 = 0) /\
      Z.land (u32 (rtccon (n + k))) 0x40 <> 0.
Proof.
  induction fuel as [| fuel IH]; intros k loads H; simpl in H; [discriminate |].
  destruct (Z.eqb_spec (Z.land (u32 (rtccon k)) 64) 0) as [Hclear | Hset].
  - destruct (wait_clock_running fuel rtccon (S k)) as [rest |] eqn:Hrest;
      [| discriminate].
    injection H as <-.
    destruct (IH (S k) rest Hrest) as (Hst & n & Hn & Hloads & Hbefore & Hat).
    split; [intros r; simpl; apply Hst |].
    exists (S n). split; [lia |]. split; [simpl; lia |]. split.
    + intros [| j] Hj; [exact Hclear |].
      replace (S j + k)%nat with (j + S k)%nat by lia. apply Hbefore. lia.
    + replace (S n + k)%nat with (n + S k)%nat by lia. exact Hat.
  - injection H as <-. split; [reflexivity |].
    exists O. split; [lia |]. split; [reflexivity |].
    split; [intros j Hj; lia | exact Hset].
Qed.

Lemma wait_clock_running_exit n :
  forall fuel k,
    (forall j, (j < n)%nat -> Z.land (u32 (rtccon (j + k))) 0x40 = 0) ->
    Z.land (u32 (rtccon (n + k))) 0x40 <> 0 -> (n < fuel)%nat ->
    exists loads, wait_clock_running fuel rtccon k = Some loads /\
                  loads_in loads = S n.
Proof.
  induction n as [| n IH]; intros fuel k Hbefore Hat Hfuel;
    (destruct fuel as [| fuel]; [lia |]); simpl.
  - destruct (Z.eqb_spec (Z.land (u32 (rtccon k)) 64) 0) as [Hclear | Hset];
      [simpl in Hat; contradiction |].
    eexists. split; reflexivity.
  - destruct (Z.eqb_spec (Z.land (u32 (rtccon k)) 64) 0) as [Hclear | Hset];
      [| specialize (Hbefore O ltac:(lia)); simpl in Hbefore; contradiction].
    destruct (IH fuel (S k)) as (loads & -> & Hloads); [| | lia |].
    + intros j Hj. replace (j + S k)%nat with (S j + k)%nat by lia.
      apply Hbefore. lia.
    + replace (n + S k)%nat with (S n + k)%nat by lia. exact Hat.
    + eexists. split; [reflexivity | simpl; lia].
Qed.

End Wait.

Lemma stores_to_app r tr tr' :
  stores_to r (tr ++ tr') = stores_to r tr ++ stores_to r tr'.
Proof.
  induction tr as [| e tr IH]; [reflexivity |].
  destruct e as [r' v | v | r' v |]; simpl; rewrite ?IH; try reflexivity.
  destruct (SFR.eqb r r'); simpl; now rewrite ?IH.
Qed.

Lemma loads_in_app tr tr' : loads_in (tr ++ tr') = (loads_in tr + loads_in tr')%nat.
Proof.
  induction tr as [| e tr IH]; [reflexivity |].
  destruct e; simpl; rewrite IH; reflexivity.
Qed.

(** X17: [RTC_Initialize] returns exactly when some load of [RTCCON]
    shows bit 6 set: it has not returned for as long as every load shows the
    bit clear, however long that lasts, and when load number [n] is the first
    to show it set the call returns after [n + 1] loads. *)
Theorem RTC_Initialize_returns_iff_clock_runs
    (rtccon : nat -> Z) (year month day hour minute second : Z) :
  (forall fuel,
     RTC_Initialize fuel rtccon year month day hour minute second = None <->
     (forall j, (j < fuel)%nat -> Z.land (u32 (rtccon j)) 0x40 = 0)) /\
  (forall n fuel,
     first_running rtccon n -> (n < fuel)%nat ->
     exists tr,
       RTC_Initialize fuel rtccon year month day hour minute second = Some tr /\
       loads_in tr = S n).
Proof.
  split.
  - intros fuel. unfold RTC_Initialize, initRTC.
    pose proof (wait_clock_running_None rtccon fuel O) as Hnone.
    destruct (wait_clock_running fuel rtccon O) as [loads |].
    + split; [discriminate |]. intros Hall.
      assert (Some loads = None); [| discriminate].
      apply Hnone. intros j Hj. rewrite Nat.add_0_r. now apply Hall.
    + split; [| reflexivity]. intros _ j Hj.
      rewrite <- (Nat.add_0_r j). now apply (proj1 Hnone).
  - intros n fuel [Hbefore Hat] Hfuel. unfold RTC_Initialize, initRTC.
    destruct (wait_clock_running_exit rtccon n fuel O) as (loads & -> & Hloads);
      [| | exact Hfuel |].
    + intros j Hj. rewrite Nat.add_0_r. now apply Hbefore.
    + now rewrite Nat.add_0_r.
    + eexists. split; [reflexivity |].
      rewrite !loads_in_app, Hloads. simpl. lia.
Qed.

Lemma RTC_Initialize_returns_iff_clock_runs_witness :
  exists tr,
    RTC_Initialize 5 (fun k => if (k <? 3)%nat then 0 else 0x40) 2025 8 8 14 30 5
    = Some tr /\ loads_in tr = 4%nat.
Proof.
  apply (proj2 (RTC_Initialize_returns_iff_clock_runs
                  (fun k => if (k <? 3)%nat then 0 else 0x40) 2025 8 8 14 30 5)
               3%nat 5%nat).
  - split.
    + intros j Hj. destruct (Nat.ltb_spec j 3); [reflexivity | lia].
    + simpl. discriminate.
  - lia.
Defined.

Lemma write_access_after_app tr tr' en :
  write_access_after en (tr ++ tr')
  = write_access_after (write_access_after en tr) tr'.
Proof.
  revert en. induction tr as [| e tr IH]; intros en; [reflexivity |].
  destruct e as [[] v | v | r v |]; simpl; apply IH.
Qed.

Lemma clock_stores_guarded_app tr tr' en :
  clock_stores_guarded en (tr ++ tr')
  = clock_stores_guarded en tr
    && clock_stores_guarded (write_access_after en tr) tr'.
Proof.
  revert en. induction tr as [| e tr IH]; intros en; [reflexivity |].
  destruct e as [[] v | v | r v |]; simpl; rewrite ?IH;
    try reflexivity; now rewrite andb_assoc.
Qed.

(** A trace without stores leaves write access as it is. *)
Lemma no_stores_guarded tr :
  (forall r, stores_to r tr = []) ->
  forall en, clock_stores_guarded en tr = true /\ write_access_after en tr = en.
Proof.
  induction tr as [| e tr IH]; intros Hnone en; [split; reflexivity |].
  destruct e as [r v | v | r v |].
  - specialize (Hnone r). simpl in Hnone.
    destruct r; simpl in Hnone; discriminate.
  - simpl. apply IH. intros r0. exact (Hnone r0).
  - simpl. apply IH. intros r0. exact (Hnone r0).
  - simpl. apply IH. intros r0. exact (Hnone r0).
Qed.

(** X18: in every returning run of [RTC_Initialize] the TIME and DATE
    registers are stored to once each, with the words of [pack_time] and
    [pack_date] (no bit lost); both stores come while write access is
    switched on, that is after a store to [RTCCONSET] with bit 3 and with no
    store to [RTCCONCLR] with bit 3 in between, however many loads the wait
    takes; and the run ends with write access switched off. *)
Theorem RTC_Initialize_stores
    (fuel : nat) (rtccon : nat -> Z)
    (year month day hour minute second : Z) (tr : list bus_event) :
  RTC_Initialize fuel rtccon year month day hour minute second = Some tr ->
  stores_to SFR.RTCTIME tr = [pack_time hour minute second] /\
  stores_to SFR.RTCDATE tr = [pack_date year month day] /\
  clock_stores_guarded false tr = true /\
  write_access_after false tr = false /\
  exists before mid after,
    tr = before ++ Store SFR.RTCCONSET 8 :: mid
                ++ Store SFR.RTCCONCLR 8 :: after /\
    stores_to SFR.RTCTIME mid = [pack_time hour minute second] /\
    stores_to SFR.RTCDATE mid = [pack_date year month day] /\
    write_access_after false before = false /\
    write_access_after true mid = true /\
    clock_stores_guarded true mid = true /\
    stores_to SFR.RTCTIME (before ++ after) = [] /\
    stores_to SFR.RTCDATE (before ++ after) = [].
Proof.
  unfold RTC_Initialize, initRTC. intros H.
  destruct (wait_clock_running fuel rtccon O) as [loads |] eqn:Hwait;
    [| discriminate].
  assert (Htr : tr = initRTC_before_wait (pack_time hour minute second)
                       (pack_date year month day)
                     ++ loads ++ initRTC_after_wait) by congruence.
  clear H. subst tr.
  destruct (wait_clock_running_Some rtccon fuel O loads Hwait) as [Hloads _].
  assert (Ht : u32 (pack_time hour minute second) = pack_time hour minute second).
  { apply u32_small.
    apply (reg_image_bytes (int_to_bcd hour) (int_to_bcd minute)
             (int_to_bcd second)); apply int_to_bcd_range. }
  assert (Hd : u32 (pack_date year month day) = pack_date year month day).
  { apply u32_small.
    apply (reg_image_bytes (int_to_bcd (u8 (year mod 100))) (int_to_bcd month)
             (int_to_bcd day)); apply int_to_bcd_range. }
  pose proof (no_stores_guarded loads Hloads) as Hquiet.
  split; [| split; [| split; [| split]]].
  - rewrite !stores_to_app, Hloads. simpl. now rewrite Ht.
  - rewrite !stores_to_app, Hloads. simpl. now rewrite Hd.
  - rewrite !clock_stores_guarded_app, ?write_access_after_app.
    change (write_access_after false (initRTC_before_wait _ _)) with true.
    rewrite (proj1 (Hquiet true)), (proj2 (Hquiet true)). reflexivity.
  - rewrite !write_access_after_app.
    change (write_access_after false (initRTC_before_wait _ _)) with true.
    rewrite (proj2 (Hquiet true)). reflexivity.
  - exists [ StoreON 0; Store SFR.SYSKEY (u32 0xAA996655);
             Store SFR.SYSKEY (u32 0x556699AA) ].
    exists ([ Store SFR.SYSKEY (u32 0);
              Store SFR.RTCCONCLR (u32 0x8000); Store SFR.RTCCONCLR (u32 0x8000);
              Store SFR.RTCCONCLR (u32 0x8000); Store SFR.RTCCONCLR (u32 0x8000);
              Nop; Nop; Nop; Nop; Nop; Nop; Nop; Nop;
              Store SFR.RTCTIME (u32 (pack_time hour minute second));
              Store SFR.RTCDATE (u32 (pack_date year month day));
              Store SFR.RTCCONSET (u32 0x8000) ]
            ++ loads
            ++ [ Store SFR.SYSKEY (u32 0xAA996655);
                 Store SFR.SYSKEY (u32 0x556699AA) ]).
    exists [ Store SFR.SYSKEY (u32 0); StoreON 1 ].
    split; [| split; [| split; [| split; [| split]]]].
    + unfold initRTC_before_wait, initRTC_after_wait. change (u32 8) with 8.
      cbn [app]. now rewrite <- !app_assoc.
    + rewrite !stores_to_app, Hloads. simpl. now rewrite Ht.
    + rewrite !stores_to_app, Hloads. simpl. now rewrite Hd.
    + reflexivity.
    + rewrite !write_access_after_app.
      match goal with |- context [write_access_after true ?l] =>
        change (write_access_after true l) with true end.
      rewrite (proj2 (Hquiet true)). reflexivity.
    + rewrite !clock_stores_guarded_app, ?write_access_after_app.
      match goal with |- context [write_access_after true ?l] =>
        change (write_access_after true l) with true end.
      rewrite (proj1 (Hquiet true)).
      split; [reflexivity | split; reflexivity].
Qed.

Lemma RTC_Initialize_stores_witness :
  exists tr,
    RTC_Initialize 1 (fun _ => 0x40) 2025 8 8 14 30 5 = Some tr /\
    stores_to SFR.RTCTIME tr = [pack_time 14 30 5] /\
    stores_to SFR.RTCDATE tr = [pack_date 2025 8 8] /\
    clock_stores_guarded false tr = true /\
    write_access_after false tr = false.
Proof.
  eexists. split; [reflexivity |].
  destruct (RTC_Initialize_stores 1 (fun _ => 0x40) 2025 8 8 14 30 5 _ eq_refl)
    as (Ht & Hd & Hg & Hoff & _).
  repeat split; assumption.
Defined.

(** The words a returning [RTC_Initialize] stores to TIME and DATE. *)
Lemma RTC_Initialize_stored_words fuel rtccon year month day hour minute second tr :
  RTC_Initialize fuel rtccon year month day hour minute second = Some tr ->
  stores_to SFR.RTCDATE tr = [pack_date year month day] /\
  stores_to SFR.RTCTIME tr = [pack_time hour minute second].
Proof.
  unfold RTC_Initialize, initRTC. intros H.
  destruct (wait_clock_running fuel rtccon O) as [loads |] eqn:Hwait;
    [| discriminate].
  injection H as <-.
  destruct (wait_clock_running_Some rtccon fuel O loads Hwait) as [Hloads _].
  cbn [stores_to SFR.eqb]. rewrite !stores_to_app, !Hloads. simpl.
  rewrite !u32_small; [split; reflexivity | |].
  - apply (reg_image_bytes (int_to_bcd hour) (int_to_bcd minute)
             (int_to_bcd second)); apply int_to_bcd_range.
  - apply (reg_image_bytes (int_to_bcd (u8 (year mod 100))) (int_to_bcd month)
             (int_to_bcd day)); apply int_to_bcd_range.
Qed.

(** X9: setting the clock and reading it back.  After a returning
    [RTC_Initialize] with a month in 1..12, a day in 1..31, an hour in 0..23
    and a minute and second in 0..59, if the registers hold the words it
    stored, [RTC_UpdateDateTime] returns and leaves the string
    20YY-MM-DD HH:MM:SS of these very fields, YY being the year modulo
    100. *)
Theorem initialize_then_update_shows_fields
    (year month day hour minute second : Z)
    (fuel fuel' : nat) (rtccon : nat -> Z) (tr : list bus_event) (s : state) :
  is_u16 year -> 1 <= month <= 12 -> 1 <= day <= 31 ->
  0 <= hour <= 23 -> 0 <= minute <= 59 -> 0 <= second <= 59 ->
  RTC_Initialize fuel rtccon year month day hour minute second = Some tr ->
  length (current_datetime s) = 20%nat -> (1 <= fuel')%nat ->
  exists date_reg time_reg s',
    stores_to SFR.RTCDATE tr = [date_reg] /\
    stores_to SFR.RTCTIME tr = [time_reg] /\
    RTC_UpdateDateTime fuel'
      (steady {| RTCDATE := date_reg; RTCTIME := time_reg |}) s
    = Some (tt, s') /\
    c_string (current_datetime s')
    = spec_timestamp (year mod 100) month day hour minute second.
Proof.
  intros Hy Hmo Hd Hh Hmi Hs Hinit Hlen Hfuel.
  destruct (RTC_Initialize_stored_words _ _ _ _ _ _ _ _ _ Hinit) as [Hdate Htime].
  destruct (update_steady_packed year month day hour minute second s fuel')
    as (s' & Hrun & Hstr); try assumption.
  exists (pack_date year month day), (pack_time hour minute second), s'.
  auto.
Qed.

Lemma initialize_then_update_shows_fields_witness :
  exists date_reg time_reg s',
    stores_to SFR.RTCDATE
      (initRTC_before_wait (pack_time 23 59 59) (pack_date 2099 12 31)
       ++ [Load SFR.RTCCON 0x40] ++ initRTC_after_wait) = [date_reg] /\
    stores_to SFR.RTCTIME
      (initRTC_before_wait (pack_time 23 59 59) (pack_date 2099 12 31)
       ++ [Load SFR.RTCCON 0x40] ++ initRTC_after_wait) = [time_reg] /\
    RTC_UpdateDateTime 1
      (steady {| RTCDATE := date_reg; RTCTIME := time_reg |}) (initial_state 0)
    = Some (tt, s') /\
    c_string (current_datetime s') = "2099-12-31 23:59:59"%string.
Proof.
  apply (initialize_then_update_shows_fields 2099 12 31 23 59 59 1 1
           (fun _ => 0x40) _ (initial_state 0));
    try (unfold is_u16; lia); reflexivity.
Defined.

(** ** What the formatted buffer determines *)

(** A byte is determined by the two characters stored for its nibbles. *)
Lemma byte_of_nibble_chars b b' :
  0 <= b < 256 -> 0 <= b' < 256 ->
  to_char (Z.shiftr b 4 + chr "0") = to_char (Z.shiftr b' 4 + chr "0") ->
  to_char (Z.land b 15 + chr "0") = to_char (Z.land b' 15 + chr "0") ->
  b = b'.
Proof.
  intros Hb Hb' Hhi Hlo.
  destruct (byte_nibbles b Hb) as (Hh & Hl & _).
  destruct (byte_nibbles b' Hb') as (Hh' & Hl' & _).
  change (chr "0") with 48 in *.
  rewrite !to_char_small in Hhi, Hlo by lia.
  assert (Hsplit : forall x, 0 <= x < 256 -> x = Z.shiftr x 4 * 16 + Z.land x 15).
  { intros x Hx.
    pose proof (forall_byte (fun x => x =? Z.shiftr x 4 * 16 + Z.land x 15)
                  ltac:(vm_compute; reflexivity) x Hx) as H.
    now apply Z.eqb_eq in H. }
  rewrite (Hsplit b Hb), (Hsplit b' Hb'). lia.
Qed.

(** X19: the buffer [RTC_UpdateDateTime] writes determines bytes 3, 2 and
    1 of both sampled registers and nothing more: two register pairs give the
    same twenty cells exactly when they agree on these six bytes, so byte 0 of
    either register never shows. *)
Theorem format_datetime_eq_iff
    (date_reg time_reg date_reg' time_reg' : Z) (buf buf' : list Z) :
  length buf = 20%nat -> length buf' = 20%nat ->
  (format_datetime date_reg time_reg buf
   = format_datetime date_reg' time_reg' buf' <->
   reg_byte date_reg 24 = reg_byte date_reg' 24 /\
   reg_byte date_reg 16 = reg_byte date_reg' 16 /\
   reg_byte date_reg 8 = reg_byte date_reg' 8 /\
   reg_byte time_reg 24 = reg_byte time_reg' 24 /\
   reg_byte time_reg 16 = reg_byte time_reg' 16 /\
   reg_byte time_reg 8 = reg_byte time_reg' 8).
Proof.
  intros Hlen Hlen'.
  rewrite (format_datetime_cells _ _ _ Hlen), (format_datetime_cells _ _ _ Hlen').
  split.
  - intros H. injection H as Hy1 Hy0 Hm1 Hm0 Hd1 Hd0 Hh1 Hh0 Hi1 Hi0 Hs1 Hs0.
    repeat split; apply byte_of_nibble_chars;
      try apply reg_byte_range; assumption.
  - intros (-> & -> & -> & -> & -> & ->). reflexivity.
Qed.

Lemma format_datetime_eq_iff_witness :
  format_datetime (pack_date 2025 8 8 + 5) (pack_time 14 30 5 + 255) (repeat 0 20)
  = format_datetime (pack_date 2025 8 8) (pack_time 14 30 5) (repeat 7 20).
Proof.
  apply (format_datetime_eq_iff (pack_date 2025 8 8 + 5) (pack_time 14 30 5 + 255)
           (pack_date 2025 8 8) (pack_time 14 30 5) (repeat 0 20) (repeat 7 20));
    try reflexivity.
  repeat split.
Defined.
